(** * Marketdashboard: the portfolio store and the valuation/signal engine

    A shallow embedding of [dashboard.py] (class [StockPortfolio]) and the
    properties its specification states about it.

    Conventions of the embedding.
    - Python [int] is [Z]; Python [float] and numpy [float64] are the kernel's
      binary64 numbers ([PrimFloat.float]), with IEEE comparisons (false on
      NaN) and round-to-nearest-even arithmetic.
    - [str] is [string], read as ASCII text: [upper] and [strip] are Python's
      on characters below 128, and tickers with other characters are not
      described.
    - The [holdings] dict is an association list in insertion order with
      unique keys, as a Python dict iterates.
    - A call that may raise returns [py A]: [Ret a] or [Raise e].  Only
      subclasses of [Exception] are modelled.
    - [st.error]/[st.warning] output is a list of messages returned by the
      operation.  Of a [logging] call only the formatting of its message is
      kept, since that can raise; the log itself is not modelled.
    - [@st.cache_data] hashes the arguments of a call before the body runs
      and raises when one cannot be hashed; its memoization of pure results
      is not visible and is left out.
    - Everything outside the file (the clock, [strptime], yfinance, the
      numeric kernel of pandas' rolling mean) is a field of [World]. *)

From Stdlib Require Import ZArith QArith List String Ascii Bool Lia.
From Stdlib Require Import Floats.
Import ListNotations.

Local Open Scope Z_scope.
Local Open Scope string_scope.

(* ------------------------------------------------------------------ *)
(** ** Exceptions and the result of a call *)

Inductive exn : Type :=
| ValueError (msg : string)
| OverflowError (msg : string)
| KeyError (msg : string)
| IndexError (msg : string)
| UnhashableParamError (param func : string)
| OtherException (msg : string).

(** [str(e)] *)
Definition exn_str (e : exn) : string :=
  match e with
  | ValueError m | OverflowError m | KeyError m | IndexError m
  | OtherException m => m
  | UnhashableParamError p f =>
      (* the first sentence of Streamlit's message *)
      "Cannot hash argument '" ++ p ++ "' in '" ++ f ++ "'."
  end.

(** [isinstance(e, ValueError)] *)
Definition is_ValueError (e : exn) : bool :=
  match e with ValueError _ => true | _ => false end.

Inductive py (A : Type) : Type :=
| Ret (a : A)
| Raise (e : exn).
Arguments Ret {A} a.
Arguments Raise {A} e.

Definition bind {A B : Type} (m : py A) (k : A -> py B) : py B :=
  match m with
  | Ret a => k a
  | Raise e => Raise e
  end.

Notation "x <- m ;; k" := (bind m (fun x => k))
  (at level 61, m at next level, right associativity).

(** [raise e] when [c], else continue. *)
Definition raise_if (c : bool) (e : exn) : py unit :=
  if c then Raise e else Ret tt.

(* ------------------------------------------------------------------ *)
(** ** Numbers *)

(** Python's comparison operators on floats. *)
Definition py_le (x y : float) : bool := PrimFloat.leb x y.   (* x <= y *)
Definition py_lt (x y : float) : bool := PrimFloat.ltb x y.   (* x <  y *)
Definition py_ge (x y : float) : bool := PrimFloat.leb y x.   (* x >= y *)
Definition py_gt (x y : float) : bool := PrimFloat.ltb y x.   (* x >  y *)
Definition py_eq (x y : float) : bool := PrimFloat.eqb x y.   (* x == y *)

(** [np.isnan] *)
Definition np_isnan (x : float) : bool := PrimFloat.is_nan x.

(** A numeric argument as the form's number inputs supply it. *)
Inductive pynum : Type :=
| PyInt (z : Z)
| PyFloat (f : float).

(** Conversion of an [int] to a [float]: correctly rounded, and
    [OverflowError] when the rounded value is out of range (the rounding
    then yields an infinity). *)
Definition int_to_float (z : Z) : float :=
  SF2Prim (binary_normalize prec emax z 0 false).

Definition float_of_int (z : Z) : py float :=
  let f := int_to_float z in
  if PrimFloat.is_infinity f
  then Raise (OverflowError "int too large to convert to float")
  else Ret f.

(** Conversion of a [float] to an [int]: truncation toward zero. *)
Definition int_of_float (f : float) : py Z :=
  match Prim2SF f with
  | S754_nan => Raise (ValueError "cannot convert float NaN to integer")
  | S754_infinity _ =>
      Raise (OverflowError "cannot convert float infinity to integer")
  | S754_zero _ => Ret 0
  | S754_finite s m e =>
      let a := Z.shiftl (Zpos m) e in
      Ret (if s then - a else a)
  end.

(** [int(x)] *)
Definition py_int (x : pynum) : py Z :=
  match x with
  | PyInt z => Ret z
  | PyFloat f => int_of_float f
  end.

(** [float(x)] *)
Definition py_float (x : pynum) : py float :=
  match x with
  | PyInt z => float_of_int z
  | PyFloat f => Ret f
  end.

(** [n * x] and [x * n] for an [int] n and a [float64] x: the integer is
    converted first. *)
Definition int_mul_float (n : Z) (x : float) : py float :=
  fn <- float_of_int n ;; Ret (PrimFloat.mul fn x).
Definition float_mul_int (x : float) (n : Z) : py float :=
  fn <- float_of_int n ;; Ret (PrimFloat.mul x fn).

(** The smallest magnitude whose decimal text has more than 4300 digits,
    [sys.get_int_max_str_digits()] being 4300. *)
Definition str_digits_limit : Z := Eval vm_compute in (10 ^ 4300)%Z.

Definition msg_digits : string :=
  "Exceeds the limit (4300 digits) for integer string conversion; use sys.set_int_max_str_digits() to increase the limit".

(** [f"{n}"] for an [int]: the conversion to decimal text raises above the
    digit limit.  The text itself only ever reaches the log. *)
Definition format_int (n : Z) : py unit :=
  if (str_digits_limit <=? Z.abs n)%Z then Raise (ValueError msg_digits)
  else Ret tt.

(* ------------------------------------------------------------------ *)
(** ** Strings: [str.upper] and [str.strip] on ASCII text *)

Definition ascii_upper (c : ascii) : ascii :=
  let n := nat_of_ascii c in
  if (Nat.leb 97 n && Nat.leb n 122)%bool then ascii_of_nat (n - 32) else c.

Fixpoint upper (s : string) : string :=
  match s with
  | EmptyString => EmptyString
  | String c r => String (ascii_upper c) (upper r)
  end.

(** [c.isspace()] for an ASCII character: TAB..CR, FS..US and the space. *)
Definition is_space (c : ascii) : bool :=
  let n := nat_of_ascii c in
  ((Nat.leb 9 n && Nat.leb n 13) || (Nat.leb 28 n && Nat.leb n 32))%bool.

Fixpoint lstrip (s : string) : string :=
  match s with
  | EmptyString => EmptyString
  | String c r => if is_space c then lstrip r else s
  end.

Fixpoint rstrip (s : string) : string :=
  match s with
  | EmptyString => EmptyString
  | String c r =>
      match rstrip r with
      | EmptyString => if is_space c then EmptyString else String c EmptyString
      | r' => String c r'
      end
  end.

Definition strip (s : string) : string := rstrip (lstrip s).

(** [ticker.upper().strip()] *)
Definition normalize (ticker : string) : string := strip (upper ticker).

(* ------------------------------------------------------------------ *)
(** ** The holdings dict *)

Record position : Type := mkPosition {
  shares : Z;
  buy_price : float;
  buy_date : string
}.

Definition holdings : Type := list (string * position).

(** [k in d] *)
Fixpoint dict_mem (k : string) (d : holdings) : bool :=
  match d with
  | [] => false
  | (k', _) :: r => if String.eqb k' k then true else dict_mem k r
  end.

(** [d.get(k)] *)
Fixpoint dict_get (k : string) (d : holdings) : option position :=
  match d with
  | [] => None
  | (k', v) :: r => if String.eqb k' k then Some v else dict_get k r
  end.

(** [d[k] = v]: an existing key keeps its place, a new key goes last. *)
Fixpoint dict_set (k : string) (v : position) (d : holdings) : holdings :=
  match d with
  | [] => [(k, v)]
  | (k', v') :: r =>
      if String.eqb k' k then (k, v) :: r else (k', v') :: dict_set k v r
  end.

(** [del d[k]] for a key that is present. *)
Fixpoint dict_del (k : string) (d : holdings) : holdings :=
  match d with
  | [] => []
  | (k', v') :: r =>
      if String.eqb k' k then r else (k', v') :: dict_del k r
  end.

(** [list(d)] *)
Definition keys (d : holdings) : list string := map fst d.

(** The keys of a dict are pairwise distinct. *)
Definition dict_wf (d : holdings) : Prop := NoDup (keys d).

(* ------------------------------------------------------------------ *)
(** ** The application state and its monad *)

Inductive ui_msg : Type :=
| StError (text : string)      (* st.error(text) *)
| StWarning (text : string).   (* st.warning(text) *)

(** [st.session_state.holdings], which [self.holdings] aliases, and what
    has been shown to the user so far. *)
Record store : Type := mkStore {
  st_holdings : holdings;
  st_shown : list ui_msg
}.

(** A method that may read and write the store and may raise; a raise
    leaves the store as it was at the raising statement. *)
Definition M (A : Type) : Type := store -> py A * store.

Definition ret {A : Type} (a : A) : M A := fun s => (Ret a, s).

Definition mbind {A B : Type} (m : M A) (k : A -> M B) : M B :=
  fun s =>
    match m s with
    | (Ret a, s') => k a s'
    | (Raise e, s') => (Raise e, s')
    end.

Notation "x <~ m ;; k" := (mbind m (fun x => k))
  (at level 61, m at next level, right associativity).

(** A pure call inside a method. *)
Definition lift {A : Type} (c : py A) : M A := fun s => (c, s).

(** [try: body except Exception as e: handler(e)] *)
Definition try_except {A : Type} (body : M A) (handler : exn -> M A) : M A :=
  fun s =>
    match body s with
    | (Ret a, s') => (Ret a, s')
    | (Raise e, s') => handler e s'
    end.

Definition get_holdings : M holdings := fun s => (Ret (st_holdings s), s).

(** [self.holdings[k] = v] *)
Definition set_item (k : string) (v : position) : M unit :=
  fun s => (Ret tt, mkStore (dict_set k v (st_holdings s)) (st_shown s)).

(** [del self.holdings[k]] *)
Definition del_item (k : string) : M unit :=
  fun s =>
    if dict_mem k (st_holdings s)
    then (Ret tt, mkStore (dict_del k (st_holdings s)) (st_shown s))
    else (Raise (KeyError k), s).

Definition show (m : ui_msg) : M unit :=
  fun s => (Ret tt, mkStore (st_holdings s) (st_shown s ++ [m])).

(* ------------------------------------------------------------------ *)
(** ** The world outside the file *)

Inductive period : Type := P1d | P1y.

(** What [stock.history(...)] returns, as far as the code looks at it: the
    number of rows and the [Close] column, which malformed data may lack. *)
Inductive DataFrame : Type :=
| Frame (close : list float)
| FrameNoClose (rows : nat).

Record World : Type := mkWorld {
  (** [datetime.today().strftime('%Y-%m-%d')] *)
  today : string;
  (** [datetime.strptime(s, '%Y-%m-%d')]: [None] when [s] parses, else the
      message of the [ValueError] it raises. *)
  strptime_error : string -> option string;
  (** [yf.Ticker(ticker).history(period=...)] *)
  yf_history : string -> period -> py DataFrame;
  (** The number pandas' rolling-mean kernel outputs for a window that is
      full of numbers: [roll_kernel w prefix] for window size [w] at the
      last entry of [prefix] (the kernel slides, so its rounding may depend
      on everything before the window). *)
  roll_kernel : nat -> list float -> float
}.

(* ------------------------------------------------------------------ *)
(** ** PortfolioStore: [add_stock] and [remove_stock] *)

Definition msg_shares : string := "Number of shares must be positive.".
Definition msg_price : string := "Buy price must be positive.".

(** Lines 32-35: the date to store, today's when none is given. *)
Definition check_date (w : World) (buy_date_arg : option string) : py string :=
  match buy_date_arg with
  | None => Ret (today w)
  | Some d =>
      match strptime_error w d with
      | None => Ret d
      | Some m => Raise (ValueError m)
      end
  end.

(** Lines 26-39, the body of the [try] after the ticker is normalized.
    Line 38 formats the share count for the log, after the dict is
    written. *)
Definition add_stock_body (w : World) (ticker : string)
    (shares_arg buy_price_arg : pynum) (buy_date_arg : option string)
    : M bool :=
  shares <~ lift (py_int shares_arg) ;;
  buy_price <~ lift (py_float buy_price_arg) ;;
  _ <~ lift (raise_if (shares <=? 0)%Z (ValueError msg_shares)) ;;
  _ <~ lift (raise_if (py_le buy_price 0%float) (ValueError msg_price)) ;;
  buy_date <~ lift (check_date w buy_date_arg) ;;
  _ <~ set_item ticker (mkPosition shares buy_price buy_date) ;;
  _ <~ lift (format_int shares) ;;
  ret true.

Definition add_stock (w : World) (ticker : string)
    (shares_arg buy_price_arg : pynum) (buy_date_arg : option string)
    : M bool :=
  let ticker := normalize ticker in
  try_except
    (add_stock_body w ticker shares_arg buy_price_arg buy_date_arg)
    (fun e =>
       if is_ValueError e
       then _ <~ show (StError ("Error adding stock " ++ ticker ++ ": "
                                ++ exn_str e)) ;;
            ret false
       else _ <~ show (StError ("Unexpected error adding stock " ++ ticker
                                ++ ": " ++ exn_str e)) ;;
            ret false).

Definition remove_stock (ticker : string) : M bool :=
  let ticker := normalize ticker in
  h <~ get_holdings ;;
  if dict_mem ticker h
  then _ <~ del_item ticker ;; ret true
  else _ <~ show (StWarning (ticker ++ " not found in portfolio.")) ;;
       ret false.

(* ------------------------------------------------------------------ *)
(** ** ValuationEngine: current price and portfolio value *)

(** [len(df)] *)
Definition df_len (df : DataFrame) : nat :=
  match df with
  | Frame close => List.length close
  | FrameNoClose rows => rows
  end.

(** [df.empty] *)
Definition df_empty (df : DataFrame) : bool := Nat.eqb (df_len df) 0.

(** [df['Close']] *)
Definition df_close (df : DataFrame) : py (list float) :=
  match df with
  | Frame close => Ret close
  | FrameNoClose _ => Raise (KeyError "Close")
  end.

(** [series.iloc[i]], a negative [i] counting from the end. *)
Definition iloc (xs : list float) (i : Z) : py float :=
  let n := Z.of_nat (List.length xs) in
  let j := if (i <? 0)%Z then (n + i)%Z else i in
  if ((j <? 0) || (n <=? j))%Z
  then Raise (IndexError "single positional indexer is out-of-bounds")
  else match nth_error xs (Z.to_nat j) with
       | Some x => Ret x
       | None => Raise (IndexError "single positional indexer is out-of-bounds")
       end.

(** [try: body except Exception: handler] for a call without store. *)
Definition py_try {A : Type} (body : py A) (handler : exn -> py A) : py A :=
  match body with
  | Ret a => Ret a
  | Raise e => handler e
  end.

(** An argument of a cached call, as far as hashing goes: [self] is a
    [StockPortfolio], which Streamlit cannot hash; a [str] hashes. *)
Inductive arg : Type :=
| ArgSelf
| ArgStr (s : string).

Definition st_hashable (a : arg) : bool :=
  match a with
  | ArgSelf => false
  | ArgStr _ => true
  end.

(** Streamlit hashes the parameters whose name has no leading underscore. *)
Definition st_hashed (param : string) : bool :=
  match param with
  | String "_" _ => false
  | _ => true
  end.

(** [@st.cache_data] around a function [func]: the arguments are hashed in
    order, before the body runs and outside any [try] of the body; the first
    one that cannot be hashed raises [UnhashableParamError]. *)
Fixpoint cache_data {A : Type} (func : string) (args : list (string * arg))
    (body : py A) : py A :=
  match args with
  | [] => body
  | (param, a) :: rest =>
      if (st_hashed param && negb (st_hashable a))%bool
      then Raise (UnhashableParamError param func)
      else cache_data func rest body
  end.

(** Lines 60-70, the function under the decorator; [None] is the
    unavailable price. *)
Definition get_current_price_body (w : World) (ticker : string)
    : py (option float) :=
  py_try
    (data <- yf_history w ticker P1d ;;
     if df_empty data then Ret None
     else close <- df_close data ;;
          price <- iloc close (-1) ;;
          Ret (Some price))
    (fun _ => Ret None).

(** Lines 58-70: [get_current_price(self, ticker)] as decorated. *)
Definition get_current_price (w : World) (ticker : string)
    : py (option float) :=
  cache_data "get_current_price"
    [("self", ArgSelf); ("ticker", ArgStr ticker)]
    (get_current_price_body w ticker).

(** One dict appended to [data], a row of the returned table. *)
Record row : Type := mkRow {
  Ticker : string;
  Shares : Z;
  Buy_Price : float;
  Current_Price : float;
  Value : float;
  Profit_Loss : float
}.

(** [total + x] where [total] is the int 0 or a float already. *)
Definition num_add (total : pynum) (x : float) : py pynum :=
  t <- py_float total ;; Ret (PyFloat (PrimFloat.add t x)).

(** The [for] loop of lines 76-90 over the remaining items; [price] is the
    method called at line 77. *)
Fixpoint value_loop (price : string -> py (option float)) (items : holdings)
    (total_value total_profit : pynum) (data : list row)
    : py (pynum * pynum * list row) :=
  match items with
  | [] => Ret (total_value, total_profit, data)
  | (ticker, info) :: rest =>
      current_price <- price ticker ;;
      match current_price with
      | Some current_price =>
          value <- int_mul_float (shares info) current_price ;;
          profit <- float_mul_int
                      (PrimFloat.sub current_price (buy_price info))
                      (shares info) ;;
          total_value <- num_add total_value value ;;
          total_profit <- num_add total_profit profit ;;
          value_loop price rest total_value total_profit
            (data ++ [mkRow ticker (shares info) (buy_price info)
                            current_price value profit])
      | None => value_loop price rest total_value total_profit data
      end
  end.

Definition calculate_portfolio_value (w : World) (h : holdings)
    : py (pynum * pynum * list row) :=
  value_loop (get_current_price w) h (PyInt 0) (PyInt 0) [].

(* ------------------------------------------------------------------ *)
(** ** ValuationEngine: signals *)

(** The entries of [xs] in the window of size [n] that ends at index [i]. *)
Definition window (n : nat) (xs : list float) (i : nat) : list float :=
  firstn n (skipn (i + 1 - n) xs).

(** [xs.rolling(window=n).mean()] at index [i]: [min_periods] is the window
    size, so the value is NaN until [n] entries are available and whenever
    the window holds a NaN; otherwise it is what the kernel computes. *)
Definition rolling_mean_at (kernel : nat -> list float -> float)
    (n : nat) (xs : list float) (i : nat) : float :=
  if ((i + 1 <? n)%nat || existsb np_isnan (window n xs i))%bool
  then nan
  else kernel n (firstn (i + 1) xs).

Definition rolling_mean (kernel : nat -> list float -> float)
    (n : nat) (xs : list float) : list float :=
  map (rolling_mean_at kernel n xs) (seq 0 (List.length xs)).

Definition sig_insufficient (ticker : string) : string :=
  "Hold (Insufficient data for " ++ ticker ++ ")".
Definition sig_invalid (ticker : string) : string :=
  "Hold (Invalid SMA for " ++ ticker ++ ")".
Definition sig_buy (ticker : string) : string :=
  "Buy (Golden Cross) for " ++ ticker.
Definition sig_sell (ticker : string) : string :=
  "Sell (Death Cross) for " ++ ticker.
Definition sig_hold (ticker : string) : string :=
  "Hold for " ++ ticker.
Definition sig_error (ticker : string) : string :=
  "Hold (Error for " ++ ticker ++ ")".

(** Lines 97-119, the body of the [try]. *)
Definition generate_signals_body (w : World) (ticker : string) : py string :=
  hist <- yf_history w ticker P1y ;;
  if (df_len hist <? 200)%nat then Ret (sig_insufficient ticker)
  else
    close <- df_close hist ;;
    let SMA50 := rolling_mean (roll_kernel w) 50 close in
    let SMA200 := rolling_mean (roll_kernel w) 200 close in
    sma50_latest <- iloc SMA50 (-1) ;;
    sma200_latest <- iloc SMA200 (-1) ;;
    sma50_prev <- iloc SMA50 (-2) ;;
    sma200_prev <- iloc SMA200 (-2) ;;
    if (np_isnan sma50_latest || np_isnan sma200_latest)%bool
    then Ret (sig_invalid ticker)
    else if (py_le sma50_prev sma200_prev
             && py_gt sma50_latest sma200_latest)%bool
    then Ret (sig_buy ticker)
    else if (py_ge sma50_prev sma200_prev
             && py_lt sma50_latest sma200_latest)%bool
    then Ret (sig_sell ticker)
    else Ret (sig_hold ticker).

(** Lines 96-122, the function under the decorator. *)
Definition generate_signals_undecorated (w : World) (ticker : string)
    : py string :=
  py_try (generate_signals_body w ticker)
         (fun _ => Ret (sig_error ticker)).

(** Lines 94-122: [generate_signals(self, ticker)] as decorated. *)
Definition generate_signals (w : World) (ticker : string) : py string :=
  cache_data "generate_signals"
    [("self", ArgSelf); ("ticker", ArgStr ticker)]
    (generate_signals_undecorated w ticker).

Definition msg_empty : string :=
  "Portfolio is empty, no notifications to check.".

(** The [for] loop of lines 128-130 over the remaining tickers. *)
Fixpoint notify_loop (w : World) (tickers : list string)
    (notifications : list string) : py (list string) :=
  match tickers with
  | [] => Ret notifications
  | ticker :: rest =>
      signal <- generate_signals w ticker ;;
      notify_loop w rest (notifications ++ [signal])
  end.

Definition check_notifications (w : World) (h : holdings)
    : py (list string) :=
  match h with
  | [] => Ret [msg_empty]
  | _ => notify_loop w (keys h) []
  end.

(* ------------------------------------------------------------------ *)
(** ** Concrete worlds used by the examples *)

(** A plain left-to-right mean of the window, standing for the kernel. *)
Definition naive_kernel (n : nat) (pre : list float) : float :=
  let win := skipn (List.length pre - n) pre in
  PrimFloat.div (fold_left PrimFloat.add win 0%float)
                (int_to_float (Z.of_nat n)).

(** The holdings the script starts with (lines 13-17). *)
Definition seed : holdings :=
  [("AAPL", mkPosition 10 150%float "2025-08-01");
   ("GOOGL", mkPosition 5 2500%float "2025-08-01");
   ("MSFT", mkPosition 8 300%float "2025-08-01")].

(** A source without network: every fetch raises. *)
Definition offline : World :=
  mkWorld "2026-01-02" (fun _ => None)
          (fun _ _ => Raise (OtherException "offline"))
          naive_kernel.

(** A source that serves the same closing prices for every ticker. *)
Definition serving (close : list float) : World :=
  mkWorld "2026-01-02" (fun _ => None)
          (fun _ _ => Ret (Frame close))
          naive_kernel.

(** Three shares bought at 0.3 and priced at 0.1 (the binary64 numbers
    nearest to these decimals, as Python reads the literals). *)
Definition dime_price : float := Eval cbv in (1 / 10)%float.
Definition dime_cost : float := Eval cbv in (3 / 10)%float.
Definition dime_holdings : holdings :=
  [("X", mkPosition 3 dime_cost "2025-08-01")].

(** A source that quotes 120 for every ticker except GOOGL, whose fetch
    raises. *)
Definition patchy : World :=
  mkWorld "2026-01-02" (fun _ => None)
          (fun t _ => if String.eqb t "GOOGL"
                      then Raise (OtherException "no data")
                      else Ret (Frame [120%float]))
          naive_kernel.

(** Flat at 100 and a last close of [last]: 250 observations. *)
Definition flat_then (last : float) : list float :=
  repeat 100%float 249 ++ [last].

(* ------------------------------------------------------------------ *)
(** ** Vocabulary of the properties *)

(** An ASCII lowercase letter. *)
Definition is_lower (c : ascii) : bool :=
  let n := nat_of_ascii c in (Nat.leb 97 n && Nat.leb n 122)%bool.

Fixpoint all_chars (f : ascii -> bool) (s : string) : bool :=
  match s with
  | EmptyString => true
  | String c r => (f c && all_chars f r)%bool
  end.

Definition first_char (s : string) : option ascii :=
  match s with
  | EmptyString => None
  | String c _ => Some c
  end.

Fixpoint last_char (s : string) : option ascii :=
  match s with
  | EmptyString => None
  | String c EmptyString => Some c
  | String _ r => last_char r
  end.

Definition not_space (o : option ascii) : bool :=
  match o with
  | Some c => negb (is_space c)
  | None => true
  end.

(** Text all of whose characters are below 128. *)
Definition is_ascii (s : string) : bool :=
  all_chars (fun c => Nat.ltb (nat_of_ascii c) 128) s.

(** What Python counts as whitespace among the ASCII characters: TAB, LF,
    VT, FF, CR, FS, GS, RS, US and the space. *)
Definition py_whitespace (c : ascii) : bool :=
  existsb (Nat.eqb (nat_of_ascii c)) [9; 10; 11; 12; 13; 28; 29; 30; 31; 32]%nat.

(** [b] is the uppercase of the ASCII character [a]: a lowercase letter
    moves 32 places down, any other character stays. *)
Definition upper_char_of (a b : ascii) : Prop :=
  if is_lower a then (nat_of_ascii b + 32 = nat_of_ascii a)%nat else b = a.

(** [u] is [s] uppercased, character by character. *)
Inductive upper_of : string -> string -> Prop :=
| upper_of_nil : upper_of EmptyString EmptyString
| upper_of_cons a b s u :
    upper_char_of a b -> upper_of s u -> upper_of (String a s) (String b u).

Definition no_whitespace (o : option ascii) : bool :=
  match o with
  | Some c => negb (py_whitespace c)
  | None => true
  end.

(** [k] is [ticker] uppercased and then trimmed: the uppercased ticker is
    [k] between two runs of whitespace, and [k] neither starts nor ends
    with whitespace. *)
Definition normalized (ticker k : string) : Prop :=
  exists u l r,
    upper_of ticker u /\ u = l ++ k ++ r
    /\ all_chars py_whitespace l = true /\ all_chars py_whitespace r = true
    /\ no_whitespace (first_char k) = true
    /\ no_whitespace (last_char k) = true.

(** The store after [add_stock] has refused an input with message [msg]. *)
Definition rejected (s : store) (ticker msg : string) : store :=
  mkStore (st_holdings s)
          (st_shown s ++ [StError ("Error adding stock " ++ ticker ++ ": "
                                   ++ msg)]).

(** Lines 26-35: the coercions and checks that precede the write, with the
    position they lead to.  A raise here is a validation failure. *)
Definition validate (w : World) (shares_arg buy_price_arg : pynum)
    (buy_date_arg : option string) : py position :=
  n <- py_int shares_arg ;;
  x <- py_float buy_price_arg ;;
  _ <- raise_if (n <=? 0)%Z (ValueError msg_shares) ;;
  _ <- raise_if (py_le x 0%float) (ValueError msg_price) ;;
  d <- check_date w buy_date_arg ;;
  Ret (mkPosition n x d).

(** The invariant of a position: [shares > 0] and [buy_price > 0]. *)
Definition position_ok (p : position) : bool :=
  ((0 <? shares p)%Z && py_gt (buy_price p) 0%float)%bool.

Definition portfolio_ok (h : holdings) : bool :=
  forallb (fun kv => position_ok (snd kv)) h.

(** What the two guards of [add_stock] establish: [shares > 0] and not
    [buy_price <= 0]. *)
Definition position_checked (p : position) : bool :=
  ((0 <? shares p)%Z && negb (py_le (buy_price p) 0%float))%bool.

Definition portfolio_checked (h : holdings) : bool :=
  forallb (fun kv => position_checked (snd kv)) h.

(** The price the body of [get_current_price] returns, [None] when it is
    unavailable. *)
Definition price_of (w : World) (ticker : string) : option float :=
  match get_current_price_body w ticker with
  | Ret r => r
  | Raise _ => None
  end.

(** The items of the portfolio whose price is available, with that price,
    in the order of the dict. *)
Fixpoint priced (w : World) (h : holdings)
    : list (string * position * float) :=
  match h with
  | [] => []
  | (t, info) :: r =>
      match price_of w t with
      | Some p => (t, info, p) :: priced w r
      | None => priced w r
      end
  end.

(** The share count converts to a float. *)
Definition fits_float (n : Z) : bool :=
  negb (PrimFloat.is_infinity (int_to_float n)).

(** The row of a priced item: [Value = shares * price] and
    [Profit/Loss = (price - buy_price) * shares]. *)
Definition row_of (item : string * position * float) : row :=
  let '(t, info, p) := item in
  mkRow t (shares info) (buy_price info) p
        (PrimFloat.mul (int_to_float (shares info)) p)
        (PrimFloat.mul (PrimFloat.sub p (buy_price info))
                       (int_to_float (shares info))).

(** A running total: the int 0 before the first addend, then the
    left-to-right float sum. *)
Definition total_of (xs : list float) : pynum :=
  match xs with
  | [] => PyInt 0
  | _ => PyFloat (fold_left PrimFloat.add xs 0%float)
  end.

(** The rational number a finite float denotes. *)
Definition SF2Q (x : spec_float) : option Q :=
  match x with
  | S754_zero _ => Some 0%Q
  | S754_finite s m e =>
      Some (inject_Z (if s then Zneg m else Zpos m) * Qpower 2 e)%Q
  | S754_infinity _ | S754_nan => None
  end.

Definition F2Q (f : float) : option Q := SF2Q (Prim2SF f).

Definition num2Q (x : pynum) : option Q :=
  match x with
  | PyInt z => Some (inject_Z z)
  | PyFloat f => F2Q f
  end.

(** The cost basis of the priced items: the exact sum of
    [shares * buy_price]. *)
Fixpoint cost_basis (items : list (string * position * float)) : Q :=
  match items with
  | [] => 0%Q
  | (_, info, _) :: r =>
      (inject_Z (shares info)
       * match F2Q (buy_price info) with Some q => q | None => 0 end
       + cost_basis r)%Q
  end.

(** The valuation with the body of [get_current_price] as the lookup of
    line 77: what the loop computes once a call gets past the decorator. *)
Definition valuation_past_decorator (w : World) (h : holdings)
    : py (pynum * pynum * list row) :=
  value_loop (get_current_price_body w) h (PyInt 0) (PyInt 0) [].

(** The identity between the aggregates, read over the rationals:
    [total_profit = total_value - sum of shares * buy_price] over the
    priced items. *)
Definition pnl_identity (w : World) (h : holdings) : Prop :=
  exists tv tp rows qv qp,
    valuation_past_decorator w h = Ret (tv, tp, rows)
    /\ num2Q tv = Some qv /\ num2Q tp = Some qp
    /\ (qp == qv - cost_basis (priced w h))%Q.

(** The float [f] is exactly the integer [n]. *)
Definition exact_int (n : Z) (f : float) : bool :=
  match F2Q f with
  | Some q => Qeq_bool q (inject_Z n)
  | None => false
  end.

(** The float operation [op] on [x] and [y] is finite and did not round:
    its result is [opQ] of the operands. *)
Definition exact_op (op : float -> float -> float) (opQ : Q -> Q -> Q)
    (x y : float) : bool :=
  match F2Q x, F2Q y, F2Q (op x y) with
  | Some a, Some b, Some c => Qeq_bool c (opQ a b)
  | _, _, _ => false
  end.

(** No float operation of the valuation loop rounds or overflows, from the
    running totals [tv] and [tp] on. *)
Fixpoint exact_run (items : list (string * position * float))
    (tv tp : float) : bool :=
  match items with
  | [] => true
  | (_, info, p) :: r =>
      let fn := int_to_float (shares info) in
      let v := PrimFloat.mul fn p in
      let d := PrimFloat.sub p (buy_price info) in
      let pr := PrimFloat.mul d fn in
      (fits_float (shares info) && exact_int (shares info) fn
       && exact_op PrimFloat.mul Qmult fn p
       && exact_op PrimFloat.sub Qminus p (buy_price info)
       && exact_op PrimFloat.mul Qmult d fn
       && exact_op PrimFloat.add Qplus tv v
       && exact_op PrimFloat.add Qplus tp pr
       && exact_run r (PrimFloat.add tv v) (PrimFloat.add tp pr))%bool
  end.

(** A sequence of store operations. *)
Inductive op : Type :=
| OpAdd (ticker : string) (shares_arg buy_price_arg : pynum)
        (buy_date_arg : option string)
| OpRemove (ticker : string).

Definition step (w : World) (s : store) (o : op) : store :=
  match o with
  | OpAdd t sh bp da => snd (add_stock w t sh bp da s)
  | OpRemove t => snd (remove_stock t s)
  end.

Definition run (w : World) (ops : list op) (s : store) : store :=
  fold_left (step w) ops s.

(** The price argument of the operation, when it is an addition whose price
    coerces to a float, is not NaN. *)
Definition op_price_not_nan (o : op) : bool :=
  match o with
  | OpAdd _ _ bp _ =>
      match py_float bp with
      | Ret x => negb (np_isnan x)
      | Raise _ => true
      end
  | OpRemove _ => true
  end.

(* ------------------------------------------------------------------ *)
(** ** Vocabulary of the further properties *)

(** Every key of the dict is its own normal form. *)
Definition keys_normal (h : holdings) : Prop :=
  Forall (fun k => normalize k = k) (keys h).

(** The store after [add_stock] has caught the exception [e]: the first
    handler takes a [ValueError], the second anything else. *)
Definition reported (s : store) (ticker : string) (e : exn) : store :=
  mkStore (st_holdings s)
    (st_shown s
     ++ [StError ((if is_ValueError e then "Error adding stock "
                   else "Unexpected error adding stock ")
                  ++ ticker ++ ": " ++ exn_str e)]).

(** The strings the body of [generate_signals] can return for a ticker. *)
Definition sig_outcomes (ticker : string) : list string :=
  [sig_insufficient ticker; sig_invalid ticker; sig_buy ticker;
   sig_sell ticker; sig_hold ticker; sig_error ticker].

(** The last [n] entries of a series. *)
Definition last_n (n : nat) (xs : list float) : list float :=
  skipn (List.length xs - n) xs.

(** A few operations on the store, for the examples. *)
Definition sample_ops : list op :=
  [OpAdd " tsla " (PyFloat 2.5%float) (PyInt 200) None;
   OpRemove "googl";
   OpAdd "aapl" (PyInt 0) (PyFloat 1%float) None;
   OpAdd "msft" (PyInt 1) (PyFloat 310%float) (Some "2025-09-01");
   OpRemove "nvda"].

(** What [@st.cache_data] raises on a method: [self] cannot be hashed. *)
Definition unhashable_self (func : string) : exn :=
  UnhashableParamError "self" func.

(* ------------------------------------------------------------------ *)
(** ** Facts about binary64 comparisons *)

Section FloatOrder.

Lemma SFcompare_swap (x y : spec_float) :
  SFcompare y x = option_map CompOpp (SFcompare x y).
Proof.
  destruct x as [sx|sx| |sx mx ex], y as [sy|sy| |sy my ey];
    try destruct sx; try destruct sy; try reflexivity;
    cbn [SFcompare option_map];
    rewrite (Z.compare_antisym ey ex);
    destruct (ey ?= ex)%Z; cbn [CompOpp]; try reflexivity;
    rewrite (ZC4 mx my); try reflexivity;
    now rewrite CompOpp_involutive.
Qed.

Lemma gt_not_le (x y : float) : py_gt x y = true -> py_le x y = false.
Proof.
  unfold py_gt, py_le. rewrite ltb_spec, leb_spec. unfold SFltb, SFleb.
  rewrite (SFcompare_swap (Prim2SF x) (Prim2SF y)).
  destruct (SFcompare (Prim2SF x) (Prim2SF y)) as [[]|];
    cbn [option_map CompOpp]; congruence.
Qed.

Lemma eq_not_lt (x y : float) :
  py_eq x y = true -> py_lt x y = false /\ py_gt x y = false.
Proof.
  unfold py_eq, py_lt, py_gt. rewrite eqb_spec, !ltb_spec.
  unfold SFeqb, SFltb.
  rewrite (SFcompare_swap (Prim2SF x) (Prim2SF y)).
  destruct (SFcompare (Prim2SF x) (Prim2SF y)) as [[]|];
    cbn [option_map CompOpp]; intros H; split; congruence.
Qed.

Lemma eq_le_ge (x y : float) :
  py_eq x y = true -> py_le x y = true /\ py_ge x y = true.
Proof.
  unfold py_eq, py_le, py_ge. rewrite eqb_spec, !leb_spec.
  unfold SFeqb, SFleb.
  rewrite (SFcompare_swap (Prim2SF x) (Prim2SF y)).
  destruct (SFcompare (Prim2SF x) (Prim2SF y)) as [[]|];
    cbn [option_map CompOpp]; intros H; split; congruence.
Qed.

(** Every ordered comparison that involves NaN is false. *)
Lemma le_nan_r (x : float) : py_le x nan = false.
Proof.
  unfold py_le. rewrite leb_spec. unfold SFleb.
  change (Prim2SF nan) with S754_nan.
  now destruct (Prim2SF x).
Qed.

Lemma le_nan_l (x : float) : py_le nan x = false.
Proof.
  unfold py_le. rewrite leb_spec. unfold SFleb.
  change (Prim2SF nan) with S754_nan.
  now destruct (Prim2SF x).
Qed.

(** A float that is neither [<= 0] nor NaN is [> 0]. *)
Lemma not_le_not_nan_gt (x : float) :
  py_le x 0%float = false -> np_isnan x = false -> py_gt x 0%float = true.
Proof.
  unfold py_le, py_gt, np_isnan. rewrite leb_spec, ltb_spec.
  unfold SFleb, SFltb.
  change (Prim2SF 0%float) with (S754_zero false).
  intros Hle Hnan. destruct (Prim2SF x) as [s|s| |s m e] eqn:E.
  - discriminate Hle.
  - destruct s; [discriminate Hle | reflexivity].
  - rewrite <- (SF2Prim_Prim2SF x), E in Hnan. discriminate Hnan.
  - destruct s; [discriminate Hle | reflexivity].
Qed.

End FloatOrder.

(* ------------------------------------------------------------------ *)
(** ** Indexing the rolling means *)

Lemma rolling_mean_length kernel n xs :
  List.length (rolling_mean kernel n xs) = List.length xs.
Proof. unfold rolling_mean. now rewrite length_map, length_seq. Qed.

(** [.iloc[-k]] of a rolling mean is the mean at index [len - k]. *)
Lemma iloc_rolling_mean kernel n xs (k : nat) :
  (1 <= k <= List.length xs)%nat ->
  iloc (rolling_mean kernel n xs) (- Z.of_nat k)
  = Ret (rolling_mean_at kernel n xs (List.length xs - k)).
Proof.
  intros Hk. unfold iloc. rewrite rolling_mean_length.
  replace (- Z.of_nat k <? 0)%Z with true by (symmetry; apply Z.ltb_lt; lia).
  replace (Z.of_nat (List.length xs) + - Z.of_nat k)%Z
    with (Z.of_nat (List.length xs - k)) by lia.
  replace (Z.of_nat (List.length xs - k) <? 0)%Z with false
    by (symmetry; apply Z.ltb_ge; lia).
  replace (Z.of_nat (List.length xs) <=? Z.of_nat (List.length xs - k))%Z
    with false by (symmetry; apply Z.leb_gt; lia).
  cbn [orb]. rewrite Nat2Z.id. unfold rolling_mean.
  rewrite nth_error_map, nth_error_seq.
  replace (List.length xs - k <? List.length xs)%nat with true
    by (symmetry; apply Nat.ltb_lt; lia).
  reflexivity.
Qed.

(** The body of [generate_signals] once the history has 200 rows or more:
    the four moving averages are read at the last two indices. *)
Lemma generate_signals_body_long w ticker close :
  yf_history w ticker P1y = Ret (Frame close) ->
  (200 <= List.length close)%nat ->
  let n := List.length close in
  let l50 := rolling_mean_at (roll_kernel w) 50 close (n - 1) in
  let l200 := rolling_mean_at (roll_kernel w) 200 close (n - 1) in
  let p50 := rolling_mean_at (roll_kernel w) 50 close (n - 2) in
  let p200 := rolling_mean_at (roll_kernel w) 200 close (n - 2) in
  generate_signals_body w ticker =
    if (np_isnan l50 || np_isnan l200)%bool then Ret (sig_invalid ticker)
    else if (py_le p50 p200 && py_gt l50 l200)%bool then Ret (sig_buy ticker)
    else if (py_ge p50 p200 && py_lt l50 l200)%bool then Ret (sig_sell ticker)
    else Ret (sig_hold ticker).
Proof.
  intros Hh Hn n l50 l200 p50 p200. unfold generate_signals_body.
  rewrite Hh. cbn [bind df_len df_close].
  replace (List.length close <? 200)%nat with false
    by (symmetry; apply Nat.ltb_ge; exact Hn).
  change (-1)%Z with (- Z.of_nat 1)%Z. change (-2)%Z with (- Z.of_nat 2)%Z.
  rewrite !iloc_rolling_mean by lia.
  reflexivity.
Qed.

Lemma lt_not_gt (x y : float) : py_lt x y = true -> py_gt x y = false.
Proof.
  unfold py_lt, py_gt. rewrite !ltb_spec. unfold SFltb.
  rewrite (SFcompare_swap (Prim2SF x) (Prim2SF y)).
  destruct (SFcompare (Prim2SF x) (Prim2SF y)) as [[]|];
    cbn [option_map CompOpp]; congruence.
Qed.

(* ------------------------------------------------------------------ *)
(** ** Signals *)

(** The decorated method raises on every call: hashing [self] fails before
    the body is entered. *)
Lemma generate_signals_raises w ticker :
  generate_signals w ticker = Raise (unhashable_self "generate_signals").
Proof. reflexivity. Qed.

(** C6. [generate_signals] does propagate an exception to its caller: on
    every call the decorator raises [UnhashableParamError] for [self],
    outside the [try] of the body, whatever the data source does; with a
    failing fetch the body alone would have answered Hold/Error. *)
Theorem generate_signals_propagates :
  (forall w ticker,
     generate_signals w ticker
     = Raise (UnhashableParamError "self" "generate_signals"))
  /\ generate_signals_undecorated offline "AAPL" = Ret (sig_error "AAPL").
Proof. split; reflexivity. Qed.

(** C1. On a history of 250 closes whose SMA50 crosses above SMA200 at the
    latest point (or below it) the call raises [UnhashableParamError]
    instead of answering Buy (or Sell), which is what the body under the
    decorator computes. *)
Theorem crossover_call_raises :
  generate_signals (serving (flat_then 200%float)) "X"
  = Raise (UnhashableParamError "self" "generate_signals")
  /\ generate_signals_undecorated (serving (flat_then 200%float)) "X"
     = Ret (sig_buy "X")
  /\ generate_signals (serving (flat_then 50%float)) "X"
     = Raise (UnhashableParamError "self" "generate_signals")
  /\ generate_signals_undecorated (serving (flat_then 50%float)) "X"
     = Ret (sig_sell "X").
Proof. repeat split; vm_compute; reflexivity. Qed.

(** C2. On a history of 199 rows the call raises [UnhashableParamError]
    instead of answering Hold/Insufficient, which is what the body under
    the decorator returns. *)
Theorem short_history_call_raises :
  generate_signals (serving (repeat 100%float 199)) "X"
  = Raise (UnhashableParamError "self" "generate_signals")
  /\ generate_signals_undecorated (serving (repeat 100%float 199)) "X"
     = Ret (sig_insufficient "X").
Proof. split; vm_compute; reflexivity. Qed.

(** C9. On a history of exactly 200 closes the call raises
    [UnhashableParamError] instead of answering Hold, which is what the
    body under the decorator returns (the previous SMA200 being NaN). *)
Theorem exactly_200_call_raises :
  generate_signals (serving (repeat 100%float 199 ++ [200%float])) "X"
  = Raise (UnhashableParamError "self" "generate_signals")
  /\ generate_signals_undecorated
       (serving (repeat 100%float 199 ++ [200%float])) "X"
     = Ret (sig_hold "X").
Proof. split; vm_compute; reflexivity. Qed.

(* ------------------------------------------------------------------ *)
(** ** Ticker normalization *)

Section Normalize.

Lemma ascii_upper_not_lower c : is_lower (ascii_upper c) = false.
Proof. destruct c as [[] [] [] [] [] [] [] []]; reflexivity. Qed.

Lemma upper_no_lower s :
  all_chars (fun c => negb (is_lower c)) (upper s) = true.
Proof.
  induction s as [|c r IH]; cbn [upper all_chars]; [reflexivity|].
  now rewrite ascii_upper_not_lower, IH.
Qed.

Lemma all_chars_app f a b :
  all_chars f (a ++ b) = (all_chars f a && all_chars f b)%bool.
Proof.
  induction a as [|c r IH]; cbn [append all_chars]; [reflexivity|].
  now rewrite IH, andb_assoc.
Qed.

Lemma lstrip_split s :
  exists l, s = l ++ lstrip s /\ all_chars is_space l = true.
Proof.
  induction s as [|c r (l & E & Hl)]; cbn [lstrip].
  - exists EmptyString. now split.
  - destruct (is_space c) eqn:Ec.
    + exists (String c l). cbn [append all_chars]. rewrite Ec, Hl.
      split; [now rewrite <- E | reflexivity].
    + exists EmptyString. now split.
Qed.

Lemma rstrip_split s :
  exists r, s = rstrip s ++ r /\ all_chars is_space r = true.
Proof.
  induction s as [|c t (r & E & Hr)]; cbn [rstrip].
  - exists EmptyString. now split.
  - destruct (rstrip t) as [|c' t'] eqn:Et.
    + cbn [append] in E. subst t. destruct (is_space c) eqn:Ec.
      * exists (String c r). cbn [append all_chars]. now rewrite Ec, Hr.
      * exists r. now split.
    + exists r. cbn [append]. split; [now rewrite E at 1 | exact Hr].
Qed.

Lemma lstrip_first s : not_space (first_char (lstrip s)) = true.
Proof.
  induction s as [|c r IH]; cbn [lstrip]; [reflexivity|].
  destruct (is_space c) eqn:Ec; [exact IH|].
  cbn [first_char not_space]. now rewrite Ec.
Qed.

Lemma rstrip_first s :
  not_space (first_char s) = true ->
  not_space (first_char (rstrip s)) = true.
Proof.
  destruct s as [|c r]; cbn [rstrip first_char not_space]; [reflexivity|].
  intros Hc. apply negb_true_iff in Hc.
  destruct (rstrip r); [rewrite Hc|]; cbn [first_char not_space];
    now rewrite Hc.
Qed.

Lemma rstrip_last s : not_space (last_char (rstrip s)) = true.
Proof.
  induction s as [|c r IH]; cbn [rstrip]; [reflexivity|].
  destruct (rstrip r) as [|c' r'] eqn:Er.
  - destruct (is_space c) eqn:Ec; cbn [last_char not_space];
      [reflexivity | now rewrite Ec].
  - exact IH.
Qed.

(** The shape of [ticker.upper().strip()], in the code's own terms. *)
Lemma normalize_shape ticker :
  all_chars (fun c => negb (is_lower c)) (normalize ticker) = true
  /\ not_space (first_char (normalize ticker)) = true
  /\ not_space (last_char (normalize ticker)) = true
  /\ exists l r,
       upper ticker = l ++ normalize ticker ++ r
       /\ all_chars is_space l = true /\ all_chars is_space r = true.
Proof.
  unfold normalize, strip.
  destruct (lstrip_split (upper ticker)) as (l & El & Hl).
  destruct (rstrip_split (lstrip (upper ticker))) as (r & Er & Hr).
  assert (E : upper ticker = l ++ rstrip (lstrip (upper ticker)) ++ r)
    by (rewrite <- Er; exact El).
  repeat split.
  - pose proof (upper_no_lower ticker) as H. rewrite E in H.
    rewrite !all_chars_app in H.
    apply andb_prop in H as [_ H]. now apply andb_prop in H as [H _].
  - apply rstrip_first, lstrip_first.
  - apply rstrip_last.
  - exists l, r. auto.
Qed.

(** The whitespace test of the code is Python's on ASCII characters. *)
Lemma is_space_py_whitespace c : is_space c = py_whitespace c.
Proof. destruct c as [[] [] [] [] [] [] [] []]; reflexivity. Qed.

Lemma all_chars_ext f g s :
  (forall c, f c = g c) -> all_chars f s = all_chars g s.
Proof.
  intros H. induction s as [|c r IH]; cbn [all_chars]; [reflexivity|].
  now rewrite H, IH.
Qed.

Lemma ascii_upper_char_of c : upper_char_of c (ascii_upper c).
Proof. destruct c as [[] [] [] [] [] [] [] []]; cbv; reflexivity. Qed.

Lemma upper_upper_of s : upper_of s (upper s).
Proof.
  induction s as [|c r IH]; cbn [upper]; constructor;
    [apply ascii_upper_char_of | exact IH].
Qed.

(** [ticker.upper().strip()] is the uppercased, then trimmed ticker. *)
Lemma normalize_normalized ticker : normalized ticker (normalize ticker).
Proof.
  destruct (normalize_shape ticker) as (_ & Hf & Hl & l & r & E & Sl & Sr).
  exists (upper ticker), l, r.
  split; [apply upper_upper_of|]. split; [exact E|].
  rewrite <- (all_chars_ext _ _ l is_space_py_whitespace).
  rewrite <- (all_chars_ext _ _ r is_space_py_whitespace).
  split; [exact Sl|]. split; [exact Sr|].
  unfold not_space in Hf, Hl. unfold no_whitespace.
  split.
  - destruct (first_char (normalize ticker)); [|reflexivity].
    now rewrite <- is_space_py_whitespace.
  - destruct (last_char (normalize ticker)); [|reflexivity].
    now rewrite <- is_space_py_whitespace.
Qed.

End Normalize.

(* ------------------------------------------------------------------ *)
(** ** The holdings dict: lookups after an update *)

Section Dict.

Lemma dict_get_set_same k v d : dict_get k (dict_set k v d) = Some v.
Proof.
  induction d as [|[k' v'] r IH]; cbn [dict_set dict_get].
  - now rewrite String.eqb_refl.
  - destruct (String.eqb k' k) eqn:E; cbn [dict_get].
    + now rewrite String.eqb_refl.
    + now rewrite E.
Qed.

Lemma dict_get_set_other k k' v d :
  k' <> k -> dict_get k' (dict_set k v d) = dict_get k' d.
Proof.
  intros Hne. induction d as [|[k0 v0] r IH]; cbn [dict_set dict_get].
  - destruct (String.eqb_spec k k'); [congruence | reflexivity].
  - destruct (String.eqb_spec k0 k) as [->|Hk]; cbn [dict_get].
    + destruct (String.eqb_spec k k'); [congruence | reflexivity].
    + now rewrite IH.
Qed.

Lemma dict_mem_In k d : dict_mem k d = true <-> In k (keys d).
Proof.
  induction d as [|[k' v'] r IH]; cbn [dict_mem keys map fst In].
  - split; [discriminate | tauto].
  - destruct (String.eqb_spec k' k) as [->|Hk].
    + tauto.
    + rewrite IH. unfold keys. tauto.
Qed.

(** An update of a present key keeps the order of the keys. *)
Lemma keys_set_present k v d :
  dict_mem k d = true -> keys (dict_set k v d) = keys d.
Proof.
  induction d as [|[k' v'] r IH]; cbn [dict_mem dict_set]; [discriminate|].
  destruct (String.eqb_spec k' k) as [->|Hk]; intros H.
  - reflexivity.
  - unfold keys in *. cbn [map fst]. now rewrite IH.
Qed.

(** An update of an absent key appends the item. *)
Lemma dict_set_absent k v d :
  dict_mem k d = false -> dict_set k v d = (d ++ [(k, v)])%list.
Proof.
  induction d as [|[k' v'] r IH]; cbn [dict_mem dict_set app];
    [reflexivity|].
  destruct (String.eqb k' k); [discriminate|].
  intros H. now rewrite IH.
Qed.

Lemma dict_set_wf k v d : dict_wf d -> dict_wf (dict_set k v d).
Proof.
  unfold dict_wf. intros Hwf.
  destruct (dict_mem k d) eqn:E.
  - now rewrite keys_set_present.
  - rewrite dict_set_absent by exact E. unfold keys.
    rewrite map_app. cbn [map fst].
    apply NoDup_app; [exact Hwf | repeat constructor; intros [] | ].
    intros a Ha [<-|[]]. apply dict_mem_In in Ha. congruence.
Qed.

Lemma keys_del_incl k d a : In a (keys (dict_del k d)) -> In a (keys d).
Proof.
  induction d as [|[k' v'] r IH]; cbn [dict_del]; [tauto|].
  destruct (String.eqb k' k); unfold keys in *; cbn [map fst In];
    intuition.
Qed.

Lemma dict_del_wf k d : dict_wf d -> dict_wf (dict_del k d).
Proof.
  unfold dict_wf. induction d as [|[k' v'] r IH]; cbn [dict_del];
    [trivial|].
  unfold keys in *. cbn [map fst]. intros H. inversion H; subst.
  destruct (String.eqb k' k); [assumption|].
  cbn [map fst]. constructor; [|now apply IH].
  intros Hin. now apply (keys_del_incl k r k') in Hin.
Qed.

(** In a well-formed dict a key that is present occurs exactly once. *)
Lemma count_occ_keys k d :
  dict_wf d -> dict_mem k d = true ->
  count_occ string_dec (keys d) k = 1%nat.
Proof.
  unfold dict_wf. intros Hwf Hm. apply dict_mem_In in Hm.
  pose proof (proj1 (NoDup_count_occ string_dec (keys d)) Hwf k) as Hle.
  apply (count_occ_In string_dec) in Hm. lia.
Qed.

Lemma dict_mem_set k v d : dict_mem k (dict_set k v d) = true.
Proof.
  induction d as [|[k' v'] r IH]; cbn [dict_set dict_mem].
  - now rewrite String.eqb_refl.
  - destruct (String.eqb k' k) eqn:E; cbn [dict_mem].
    + now rewrite String.eqb_refl.
    + now rewrite E.
Qed.

(** A second update of the same key overwrites the first. *)
Lemma dict_set_set k v1 v2 d :
  dict_set k v2 (dict_set k v1 d) = dict_set k v2 d.
Proof.
  induction d as [|[k' v'] r IH]; cbn [dict_set].
  - now rewrite String.eqb_refl.
  - destruct (String.eqb k' k) eqn:E; cbn [dict_set].
    + now rewrite String.eqb_refl.
    + now rewrite E, IH.
Qed.

End Dict.

(* ------------------------------------------------------------------ *)
(** ** PortfolioStore *)

Section Store.

Variable w : World.

(** The body of the [try]: a validation failure raises with the store
    untouched; otherwise the position is written, and formatting the share
    count for the log decides between returning and raising. *)
Lemma add_stock_body_eq k sh bp da s :
  add_stock_body w k sh bp da s
  = match validate w sh bp da with
    | Raise e => (Raise e, s)
    | Ret p =>
        match format_int (shares p) with
        | Ret _ =>
            (Ret true, mkStore (dict_set k p (st_holdings s)) (st_shown s))
        | Raise e =>
            (Raise e, mkStore (dict_set k p (st_holdings s)) (st_shown s))
        end
    end.
Proof.
  unfold add_stock_body, validate, mbind, lift.
  destruct (py_int sh) as [n|e]; cbn [bind]; [|reflexivity].
  destruct (py_float bp) as [x|e]; cbn [bind]; [|reflexivity].
  destruct (n <=? 0)%Z; cbn [raise_if bind]; [reflexivity|].
  destruct (py_le x 0%float); cbn [raise_if bind]; [reflexivity|].
  destruct (check_date w da) as [d|e]; cbn [bind]; [|reflexivity].
  unfold set_item. cbn [shares].
  destruct (format_int n); reflexivity.
Qed.

(** [add_stock], by the same cases: only the last one returns [True]. *)
Lemma add_stock_eq ticker sh bp da s :
  add_stock w ticker sh bp da s
  = match validate w sh bp da with
    | Raise e => (Ret false, reported s (normalize ticker) e)
    | Ret p =>
        let s' := mkStore (dict_set (normalize ticker) p (st_holdings s))
                          (st_shown s) in
        match format_int (shares p) with
        | Ret _ => (Ret true, s')
        | Raise e => (Ret false, reported s' (normalize ticker) e)
        end
    end.
Proof.
  unfold add_stock, try_except. rewrite add_stock_body_eq.
  destruct (validate w sh bp da) as [p|e].
  - destruct (format_int (shares p)) as [u|e]; [reflexivity|].
    unfold reported. destruct (is_ValueError e); reflexivity.
  - unfold reported. destruct (is_ValueError e); reflexivity.
Qed.

(** What a successful validation has established. *)
Lemma validate_ret sh bp da p :
  validate w sh bp da = Ret p ->
  exists n x d,
    p = mkPosition n x d /\ py_int sh = Ret n /\ py_float bp = Ret x
    /\ (0 < n)%Z /\ py_le x 0%float = false /\ check_date w da = Ret d.
Proof.
  unfold validate.
  destruct (py_int sh) as [n|e]; cbn [bind]; [|discriminate].
  destruct (py_float bp) as [x|e]; cbn [bind]; [|discriminate].
  destruct (n <=? 0)%Z eqn:En; cbn [raise_if bind]; [discriminate|].
  destruct (py_le x 0%float) eqn:Ex; cbn [raise_if bind]; [discriminate|].
  destruct (check_date w da) as [d|e]; cbn [bind]; [|discriminate].
  intros H. injection H as <-. apply Z.leb_gt in En.
  exists n, x, d. auto 10.
Qed.

Lemma validate_accepts sh bp da n x d :
  py_int sh = Ret n -> py_float bp = Ret x ->
  (0 < n)%Z -> py_le x 0%float = false -> check_date w da = Ret d ->
  validate w sh bp da = Ret (mkPosition n x d).
Proof.
  intros Hn Hx Hpos Hle Hd. unfold validate. rewrite Hn, Hx. cbn [bind].
  replace (n <=? 0)%Z with false by (symmetry; apply Z.leb_gt; exact Hpos).
  cbn [raise_if bind]. rewrite Hle. cbn [raise_if bind]. rewrite Hd.
  reflexivity.
Qed.

Lemma validate_checked sh bp da p :
  validate w sh bp da = Ret p -> position_checked p = true.
Proof.
  intros H.
  destruct (validate_ret _ _ _ _ H) as (n & x & d & -> & _ & _ & Hn & Hx & _).
  unfold position_checked. cbn [shares buy_price]. rewrite Hx.
  apply Z.ltb_lt in Hn. now rewrite Hn.
Qed.

(** The formatting of line 38 raises exactly from the digit limit on. *)
Lemma format_int_small n :
  (0 < n < str_digits_limit)%Z -> format_int n = Ret tt.
Proof.
  intros H. unfold format_int.
  replace (str_digits_limit <=? Z.abs n)%Z with false; [reflexivity|].
  symmetry. apply Z.leb_gt. rewrite Z.abs_eq; lia.
Qed.

Lemma format_int_large n :
  (str_digits_limit <= n)%Z -> format_int n = Raise (ValueError msg_digits).
Proof.
  intros H. unfold format_int.
  replace (str_digits_limit <=? Z.abs n)%Z with true; [reflexivity|].
  symmetry. apply Z.leb_le.
  assert (0 < str_digits_limit)%Z by reflexivity.
  rewrite Z.abs_eq; lia.
Qed.

(** [add_stock] never raises, and the holdings it leaves are either those
    it found or those with one position, which passed both guards, set
    under the normalized ticker. *)
Lemma add_stock_holdings ticker sh bp da s :
  st_holdings (snd (add_stock w ticker sh bp da s)) = st_holdings s
  \/ exists n x d,
       py_int sh = Ret n /\ py_float bp = Ret x
       /\ position_checked (mkPosition n x d) = true
       /\ st_holdings (snd (add_stock w ticker sh bp da s))
          = dict_set (normalize ticker) (mkPosition n x d) (st_holdings s).
Proof.
  rewrite add_stock_eq.
  destruct (validate w sh bp da) as [p|e] eqn:V; [|now left].
  right. pose proof (validate_checked _ _ _ _ V) as Hc.
  destruct (validate_ret _ _ _ _ V) as (n & x & d & -> & Hn & Hx & _).
  exists n, x, d. split; [exact Hn|]. split; [exact Hx|].
  split; [exact Hc|].
  cbv zeta. destruct (format_int _); reflexivity.
Qed.

(** A refusal by a [ValueError] with message [msg]. *)
Lemma add_stock_value_error ticker sh bp da s msg :
  add_stock_body w (normalize ticker) sh bp da s
  = (Raise (ValueError msg), s) ->
  add_stock w ticker sh bp da s
  = (Ret false, rejected s (normalize ticker) msg).
Proof.
  intros H. unfold add_stock, try_except. rewrite H. reflexivity.
Qed.

Lemma remove_stock_cases ticker s :
  remove_stock ticker s
  = (Ret true,
     mkStore (dict_del (normalize ticker) (st_holdings s)) (st_shown s))
  \/ remove_stock ticker s
     = (Ret false,
        mkStore (st_holdings s)
                (st_shown s ++ [StWarning (normalize ticker
                                           ++ " not found in portfolio.")])).
Proof.
  unfold remove_stock, mbind, get_holdings, del_item.
  destruct (dict_mem (normalize ticker) (st_holdings s)) eqn:E.
  - left. rewrite E. reflexivity.
  - right. reflexivity.
Qed.

(** A property of every stored position survives an update with a
    position that has it, and a deletion. *)
Lemma forallb_dict_set (f : position -> bool) k p h :
  forallb (fun kv => f (snd kv)) h = true -> f p = true ->
  forallb (fun kv => f (snd kv)) (dict_set k p h) = true.
Proof.
  intros Hh Hp.
  induction h as [|[k' v'] r IH]; cbn [dict_set forallb snd] in *.
  - now rewrite Hp.
  - apply andb_prop in Hh as [H1 H2].
    destruct (String.eqb k' k); cbn [forallb snd].
    + now rewrite Hp, H2.
    + now rewrite H1, IH.
Qed.

Lemma forallb_dict_del (f : position -> bool) k h :
  forallb (fun kv => f (snd kv)) h = true ->
  forallb (fun kv => f (snd kv)) (dict_del k h) = true.
Proof.
  intros Hh.
  induction h as [|[k' v'] r IH]; cbn [dict_del forallb snd] in *;
    [reflexivity|].
  apply andb_prop in Hh as [H1 H2].
  destruct (String.eqb k' k); cbn [forallb snd]; [exact H2|].
  now rewrite H1, IH.
Qed.

(** What every sequence of operations does preserve: the share counts
    stay positive, no stored price is [<= 0], and the keys stay
    distinct. *)
Lemma run_keeps_checked ops s :
  portfolio_checked (st_holdings s) = true -> dict_wf (st_holdings s) ->
  portfolio_checked (st_holdings (run w ops s)) = true
  /\ dict_wf (st_holdings (run w ops s)).
Proof.
  unfold run, portfolio_checked. revert s.
  induction ops as [|o ops IH]; intros s Hs Hwf; cbn [fold_left];
    [now split|].
  apply IH; destruct o as [t sh bp da | t]; cbn [step].
  - destruct (add_stock_holdings t sh bp da s)
      as [-> | (n & x & d & _ & _ & Hp & ->)];
      [exact Hs | now apply forallb_dict_set].
  - destruct (remove_stock_cases t s) as [-> | ->]; cbn [snd st_holdings];
      [now apply forallb_dict_del | exact Hs].
  - destruct (add_stock_holdings t sh bp da s)
      as [-> | (n & x & d & _ & _ & Hp & ->)];
      [exact Hwf | now apply dict_set_wf].
  - destruct (remove_stock_cases t s) as [-> | ->]; cbn [snd st_holdings];
      [now apply dict_del_wf | exact Hwf].
Qed.

(** X8. The invariant [shares > 0] and [buy_price > 0] is preserved by
    every sequence of operations none of whose prices is NaN. *)
Lemma run_keeps_ok_without_nan ops s :
  forallb op_price_not_nan ops = true ->
  portfolio_ok (st_holdings s) = true ->
  portfolio_ok (st_holdings (run w ops s)) = true.
Proof.
  unfold run, portfolio_ok. revert s.
  induction ops as [|o ops IH]; intros s Hops Hs; cbn [fold_left];
    [exact Hs|].
  cbn [forallb] in Hops. apply andb_prop in Hops as [Ho Hops].
  apply IH; [exact Hops|]. destruct o as [t sh bp da | t]; cbn [step].
  - destruct (add_stock_holdings t sh bp da s)
      as [-> | (n & x & d & _ & Hx & Hp & ->)]; [exact Hs|].
    apply forallb_dict_set; [exact Hs|].
    cbn [op_price_not_nan] in Ho. rewrite Hx in Ho.
    apply negb_true_iff in Ho.
    unfold position_checked in Hp. unfold position_ok.
    cbn [shares buy_price] in *. apply andb_prop in Hp as [H1 H2].
    apply negb_true_iff in H2.
    now rewrite H1, (not_le_not_nan_gt x H2 Ho).
  - destruct (remove_stock_cases t s) as [-> | ->]; cbn [snd st_holdings];
      [now apply forallb_dict_del | exact Hs].
Qed.

End Store.

(** C3, as amended.  With [shares <= 0] after coercion the call is refused
    with the shares message when the price coerces; with [buy_price <= 0]
    after coercion and [shares > 0] it is refused with the price message;
    and on every validation failure (any raise of lines 26-35) the call
    returns [False], shows exactly one error, which names the normalized
    ticker and the reason, and leaves the holdings as they were. *)
Theorem add_stock_rejects w ticker sh bp da s n x :
  py_int sh = Ret n -> py_float bp = Ret x ->
  ((n <= 0)%Z ->
   add_stock w ticker sh bp da s
   = (Ret false, rejected s (normalize ticker) msg_shares))
  /\ ((0 < n)%Z -> py_le x 0%float = true ->
      add_stock w ticker sh bp da s
      = (Ret false, rejected s (normalize ticker) msg_price))
  /\ (forall sh' bp' da' e,
        validate w sh' bp' da' = Raise e ->
        add_stock w ticker sh' bp' da' s
        = (Ret false, reported s (normalize ticker) e)
        /\ st_holdings (reported s (normalize ticker) e) = st_holdings s).
Proof.
  intros Hn Hx. repeat split.
  - intros Hle. apply add_stock_value_error.
    unfold add_stock_body, mbind, lift. rewrite Hn, Hx.
    replace (n <=? 0)%Z with true by (symmetry; apply Z.leb_le; exact Hle).
    reflexivity.
  - intros Hpos Hle. apply add_stock_value_error.
    unfold add_stock_body, mbind, lift. rewrite Hn, Hx.
    replace (n <=? 0)%Z with false by (symmetry; apply Z.leb_gt; exact Hpos).
    cbn [raise_if]. rewrite Hle. reflexivity.
  - rewrite add_stock_eq, H. reflexivity.
Qed.

Lemma add_stock_rejects_witness :
  add_stock offline "tsla" (PyInt 5) (PyFloat (-1)%float) None
            (mkStore seed [])
  = (Ret false, rejected (mkStore seed []) "TSLA" msg_price).
Proof.
  refine (proj1 (proj2 (add_stock_rejects offline "tsla" (PyInt 5)
                          (PyFloat (-1)%float) None (mkStore seed [])
                          5 (-1)%float eq_refl eq_refl)) _ _).
  - reflexivity.
  - reflexivity.
Defined.

(** C3 as stated fails in two ways, each time because only the first
    failing step is reported.  With [shares = 0] and [buy_price = -1] the
    price is [<= 0], yet the refusal carries the shares message, not the
    price message.  With [shares = 0] and [buy_price = 10**400] the share
    count is [<= 0], yet the refusal carries the [OverflowError] of the
    price coercion, which runs before the shares guard. *)
Lemma add_stock_reports_first_failure_only :
  py_int (PyInt 0) = Ret 0%Z
  /\ py_float (PyFloat (-1)%float) = Ret (-1)%float
  /\ py_le (-1)%float 0%float = true
  /\ add_stock offline "X" (PyInt 0) (PyFloat (-1)%float) None
               (mkStore [] [])
     = (Ret false, rejected (mkStore [] []) "X" msg_shares)
  /\ add_stock offline "X" (PyInt 0) (PyFloat (-1)%float) None
               (mkStore [] [])
     <> (Ret false, rejected (mkStore [] []) "X" msg_price)
  /\ add_stock offline "X" (PyInt 0) (PyInt (10 ^ 400)) None
               (mkStore [] [])
     = (Ret false,
        mkStore [] [StError "Unexpected error adding stock X: int too large to convert to float"])
  /\ add_stock offline "X" (PyInt 0) (PyInt (10 ^ 400)) None
               (mkStore [] [])
     <> (Ret false, rejected (mkStore [] []) "X" msg_shares).
Proof.
  repeat split; try reflexivity; vm_compute; discriminate.
Qed.

(** The holdings after [add_stock] on arguments that pass every check. *)
Lemma add_stock_stores w ticker sh bp da s n x d :
  py_int sh = Ret n -> (0 < n)%Z ->
  py_float bp = Ret x -> py_gt x 0%float = true ->
  check_date w da = Ret d ->
  st_holdings (snd (add_stock w ticker sh bp da s))
  = dict_set (normalize ticker) (mkPosition n x d) (st_holdings s).
Proof.
  intros Hn Hpos Hx Hgt Hd. rewrite add_stock_eq.
  rewrite (validate_accepts w sh bp da n x d Hn Hx Hpos
             (gt_not_le _ _ Hgt) Hd).
  cbv zeta. destruct (format_int _); reflexivity.
Qed.

(** C4. On valid arguments [add_stock] sets the entry of the normalized
    ticker (uppercased, then trimmed) to exactly the coerced values:
    afterwards that key occurs once and maps to them, every other key is as
    before, a key already present keeps its place and a new one goes last;
    adding the same ticker again overwrites the position (no merge of share
    counts) and leaves the keys as they are.  The call returns [True] and
    shows nothing when the share count has at most 4300 digits; above that
    it returns [False] with one error shown, the position being stored all
    the same. *)
Theorem add_stock_upserts w ticker sh bp da s n x d :
  dict_wf (st_holdings s) ->
  py_int sh = Ret n -> (0 < n)%Z ->
  py_float bp = Ret x -> py_gt x 0%float = true ->
  check_date w da = Ret d ->
  let k := normalize ticker in
  let p := mkPosition n x d in
  let h' := dict_set k p (st_holdings s) in
  st_holdings (snd (add_stock w ticker sh bp da s)) = h'
  /\ (is_ascii ticker = true -> normalized ticker k)
  /\ dict_get k h' = Some p
  /\ count_occ string_dec (keys h') k = 1%nat
  /\ dict_wf h'
  /\ (forall k', k' <> k -> dict_get k' h' = dict_get k' (st_holdings s))
  /\ (dict_mem k (st_holdings s) = true -> keys h' = keys (st_holdings s))
  /\ (dict_mem k (st_holdings s) = false ->
      h' = (st_holdings s ++ [(k, p)])%list)
  /\ (forall ticker2 sh2 bp2 da2 n2 x2 d2,
        normalize ticker2 = k ->
        py_int sh2 = Ret n2 -> (0 < n2)%Z ->
        py_float bp2 = Ret x2 -> py_gt x2 0%float = true ->
        check_date w da2 = Ret d2 ->
        let s2 := snd (add_stock w ticker2 sh2 bp2 da2
                         (snd (add_stock w ticker sh bp da s))) in
        dict_get k (st_holdings s2) = Some (mkPosition n2 x2 d2)
        /\ keys (st_holdings s2) = keys h')
  /\ ((n < str_digits_limit)%Z ->
      add_stock w ticker sh bp da s = (Ret true, mkStore h' (st_shown s)))
  /\ ((str_digits_limit <= n)%Z ->
      add_stock w ticker sh bp da s
      = (Ret false, rejected (mkStore h' (st_shown s)) k msg_digits)).
Proof.
  intros Hwf Hn Hpos Hx Hgt Hd k p h'.
  assert (E : st_holdings (snd (add_stock w ticker sh bp da s)) = h')
    by now apply add_stock_stores.
  assert (V : validate w sh bp da = Ret p)
    by (apply validate_accepts; auto using gt_not_le).
  split; [exact E|].
  split; [intros _; apply normalize_normalized|].
  split; [apply dict_get_set_same|].
  split; [apply count_occ_keys;
          [now apply dict_set_wf | apply dict_mem_set]|].
  split; [now apply dict_set_wf|].
  split; [intros k' Hk; now apply dict_get_set_other|].
  split; [apply keys_set_present|].
  split; [apply dict_set_absent|].
  split; [|split].
  - intros ticker2 sh2 bp2 da2 n2 x2 d2 Hk Hn2 Hpos2 Hx2 Hgt2 Hd2.
    cbv zeta.
    rewrite (add_stock_stores w ticker2 sh2 bp2 da2 _ n2 x2 d2) by assumption.
    rewrite E, Hk. split.
    + apply dict_get_set_same.
    + apply keys_set_present. apply dict_mem_set.
  - intros Hsmall. rewrite add_stock_eq, V. cbv zeta. cbn [shares p].
    unfold p. cbn [shares].
    now rewrite (format_int_small n (conj Hpos Hsmall)).
  - intros Hlarge. rewrite add_stock_eq, V. cbv zeta.
    unfold p. cbn [shares].
    now rewrite (format_int_large n Hlarge).
Qed.

Lemma seed_wf : dict_wf seed.
Proof.
  unfold dict_wf, seed, keys. cbn [map fst].
  repeat constructor; cbn [In]; intuition discriminate.
Defined.

Lemma add_stock_upserts_witness :
  st_holdings (snd (add_stock offline " aapl " (PyInt 10) (PyFloat 150%float)
                              None (mkStore seed [])))
  = [("AAPL", mkPosition 10 150%float "2026-01-02");
     ("GOOGL", mkPosition 5 2500%float "2025-08-01");
     ("MSFT", mkPosition 8 300%float "2025-08-01")]
  /\ normalized " aapl " "AAPL".
Proof.
  pose proof (add_stock_upserts offline " aapl " (PyInt 10)
                (PyFloat 150%float) None (mkStore seed [])
                10 150%float "2026-01-02"
                seed_wf eq_refl eq_refl eq_refl eq_refl eq_refl) as H.
  cbv zeta in H. destruct H as (H1 & H2 & _).
  split; [exact H1 | exact (H2 eq_refl)].
Defined.

(** C7 fails on the code: the price guard is [buy_price <= 0], which NaN
    passes, so [add_stock("X", 1, float("nan"))] on the empty portfolio
    returns [True] and stores a position whose price is not [> 0]. *)
Theorem add_stock_nan_breaks_invariant :
  portfolio_ok [] = true
  /\ add_stock offline "X" (PyInt 1) (PyFloat nan) None (mkStore [] [])
     = (Ret true, mkStore [("X", mkPosition 1 nan "2026-01-02")] [])
  /\ portfolio_ok
       (st_holdings (run offline [OpAdd "X" (PyInt 1) (PyFloat nan) None]
                         (mkStore [] [])))
     = false.
Proof. repeat split. Qed.

(* ------------------------------------------------------------------ *)
(** ** Portfolio valuation *)

Section Valuation.

Variable w : World.

(** The body of [get_current_price] never raises. *)
Lemma get_current_price_returns ticker :
  get_current_price_body w ticker = Ret (price_of w ticker).
Proof.
  unfold price_of, get_current_price_body.
  destruct (yf_history w ticker P1d) as [df|e]; cbn [bind py_try];
    [|reflexivity].
  destruct (df_empty df); [reflexivity|].
  destruct (df_close df) as [c|e]; cbn [bind py_try]; [|reflexivity].
  destruct (iloc c (-1)); reflexivity.
Qed.

Lemma float_of_int_fits n :
  fits_float n = true -> float_of_int n = Ret (int_to_float n).
Proof.
  unfold fits_float, float_of_int. intros H.
  apply negb_true_iff in H. now rewrite H.
Qed.

Lemma num_add_total xs x :
  num_add (total_of xs) x = Ret (total_of (xs ++ [x])).
Proof.
  unfold num_add. destruct xs as [|y ys]; cbn [total_of app].
  - reflexivity.
  - cbn [py_float bind].
    change (y :: ys ++ [x])%list with ((y :: ys) ++ [x])%list.
    rewrite fold_left_app.
    destruct ((y :: ys) ++ [x])%list eqn:E; [discriminate|].
    reflexivity.
Qed.

(** The loop with the body of [get_current_price] as its lookup, from any
    point on: the priced items that remain add their rows to the table and
    their columns to the running totals. *)
Lemma value_loop_spec items vs ps data :
  forallb (fun it => fits_float (shares (snd (fst it)))) (priced w items)
  = true ->
  let rows := map row_of (priced w items) in
  value_loop (get_current_price_body w) items (total_of vs) (total_of ps) data
  = Ret (total_of (vs ++ map Value rows),
         total_of (ps ++ map Profit_Loss rows),
         (data ++ rows)%list).
Proof.
  revert vs ps data.
  induction items as [|[t info] r IH]; intros vs ps data Hfit;
    cbn [value_loop priced].
  - cbn [map]. now rewrite !app_nil_r.
  - rewrite get_current_price_returns. cbn [bind].
    cbn [priced] in Hfit.
    destruct (price_of w t) as [p|]; [|now apply IH].
    cbn [forallb fst snd] in Hfit. apply andb_prop in Hfit as [Hf Hr].
    unfold int_mul_float, float_mul_int.
    rewrite (float_of_int_fits _ Hf). cbn [bind].
    rewrite !num_add_total. cbn [bind].
    rewrite IH by exact Hr.
    cbn [map row_of Value Profit_Loss].
    now rewrite <- !app_assoc.
Qed.

(** Items without a price do not take part in the loop at all. *)
Lemma value_loop_skips items tv tp data :
  value_loop (get_current_price_body w) items tv tp data
  = value_loop (get_current_price_body w)
      (filter (fun kv => match price_of w (fst kv) with
                         | Some _ => true
                         | None => false
                         end) items)
      tv tp data.
Proof.
  revert tv tp data.
  induction items as [|[t info] r IH]; intros tv tp data;
    [reflexivity|].
  cbn [filter fst]. destruct (price_of w t) as [p|] eqn:E.
  - cbn [value_loop]. rewrite get_current_price_returns, E. cbn [bind].
    destruct (int_mul_float (shares info) p); [|reflexivity].
    destruct (float_mul_int _ _); [|reflexivity]. cbn [bind].
    destruct (num_add tv a); [|reflexivity].
    destruct (num_add tp a0); [|reflexivity]. cbn [bind].
    apply IH.
  - cbn [value_loop]. rewrite get_current_price_returns, E. cbn [bind].
    apply IH.
Qed.

End Valuation.

(** The decorated lookup raises on every call. *)
Lemma get_current_price_raises w ticker :
  get_current_price w ticker = Raise (unhashable_self "get_current_price").
Proof. reflexivity. Qed.

(** Past the decorator the valuation builds its table from the priced
    items only, in dict order, with [Value = shares * price] and
    [Profit/Loss = (price - buy_price) * shares], and its totals are the
    running sums of those two columns. *)
Lemma valuation_past_decorator_spec w h :
  forallb (fun it => fits_float (shares (snd (fst it)))) (priced w h)
  = true ->
  let rows := map row_of (priced w h) in
  valuation_past_decorator w h
  = Ret (total_of (map Value rows), total_of (map Profit_Loss rows), rows).
Proof.
  intros Hfit. exact (value_loop_spec w h [] [] [] Hfit).
Qed.

(** C5. On the empty portfolio [calculate_portfolio_value] returns 0, 0 and
    no rows.  On every other portfolio it raises: the price lookup of the
    first position fails in the decorator ([UnhashableParamError] for
    [self]), outside any handler, so no position is excluded or valued and
    nothing is returned.  For 10 shares bought at 100 the call raises,
    where the loop with the lookup's body and a price of 120 gives 1200 and
    200. *)
Theorem calculate_portfolio_value_raises :
  (forall w, calculate_portfolio_value w [] = Ret (PyInt 0, PyInt 0, []))
  /\ (forall w kv r,
        calculate_portfolio_value w (kv :: r)
        = Raise (UnhashableParamError "self" "get_current_price"))
  /\ calculate_portfolio_value (serving [120%float])
       [("X", mkPosition 10 100%float "2025-08-01")]
     = Raise (UnhashableParamError "self" "get_current_price")
  /\ valuation_past_decorator (serving [120%float])
       [("X", mkPosition 10 100%float "2025-08-01")]
     = Ret (PyFloat 1200%float, PyFloat 200%float,
            [mkRow "X" 10 100%float 120%float 1200%float 200%float]).
Proof.
  split; [reflexivity|]. split; [|split; reflexivity].
  intros w [k v] r. reflexivity.
Qed.

(* ------------------------------------------------------------------ *)
(** ** Notifications *)

(** C8. On the empty portfolio [check_notifications] returns the single
    informational message.  On every other portfolio it raises: the call
    of [generate_signals] for the first ticker fails in the decorator
    ([UnhashableParamError] for [self]) and line 129 has no handler, so no
    list of signals is returned. *)
Theorem check_notifications_raises :
  (forall w, check_notifications w [] = Ret [msg_empty])
  /\ (forall w kv r,
        check_notifications w (kv :: r)
        = Raise (UnhashableParamError "self" "generate_signals"))
  /\ check_notifications (serving (flat_then 200%float)) seed
     = Raise (UnhashableParamError "self" "generate_signals").
Proof.
  split; [reflexivity|]. split; [|reflexivity].
  intros w [k v] r. reflexivity.
Qed.

(* ------------------------------------------------------------------ *)
(** ** The profit identity *)

Section Identity.

Local Open Scope Q_scope.

Lemma exact_op_inv op opQ x y :
  exact_op op opQ x y = true ->
  exists a b c,
    F2Q x = Some a /\ F2Q y = Some b /\ F2Q (op x y) = Some c
    /\ c == opQ a b.
Proof.
  unfold exact_op.
  destruct (F2Q x) as [a|]; [|discriminate].
  destruct (F2Q y) as [b|]; [|discriminate].
  destruct (F2Q (op x y)) as [c|]; [|discriminate].
  intros H. apply Qeq_bool_eq in H. exists a, b, c. auto.
Qed.

Lemma exact_int_inv n f :
  exact_int n f = true -> exists q, F2Q f = Some q /\ q == inject_Z n.
Proof.
  unfold exact_int. destruct (F2Q f) as [q|]; [|discriminate].
  intros H. apply Qeq_bool_eq in H. eauto.
Qed.

(** Along an exact run every priced share count converts, the two running
    sums stay finite, and what the profit column adds is what the value
    column adds less the cost basis. *)
Lemma exact_run_sums items :
  forall tv tp qv qp,
    F2Q tv = Some qv -> F2Q tp = Some qp ->
    exact_run items tv tp = true ->
    forallb (fun it => fits_float (shares (snd (fst it)))) items = true
    /\ exists qv' qp',
        F2Q (fold_left PrimFloat.add (map Value (map row_of items)) tv)
        = Some qv'
        /\ F2Q (fold_left PrimFloat.add
                  (map Profit_Loss (map row_of items)) tp)
           = Some qp'
        /\ qp' - qp == qv' - qv - cost_basis items.
Proof.
  induction items as [|[[t info] p] r IH]; intros tv tp qv qp Hv Hp Hrun.
  - split; [reflexivity|]. exists qv, qp. cbn [map fold_left cost_basis].
    repeat split; try assumption. ring.
  - cbn [exact_run] in Hrun.
    apply andb_prop in Hrun as [Hrun Hrest].
    apply andb_prop in Hrun as [Hrun Atp].
    apply andb_prop in Hrun as [Hrun Atv].
    apply andb_prop in Hrun as [Hrun Mpr].
    apply andb_prop in Hrun as [Hrun Sd].
    apply andb_prop in Hrun as [Hrun Mv].
    apply andb_prop in Hrun as [Hrun Hint].
    destruct (exact_int_inv _ _ Hint) as (qn & Hn & En).
    destruct (exact_op_inv _ _ _ _ Mv) as (a1 & b1 & c1 & A1 & B1 & C1 & E1).
    destruct (exact_op_inv _ _ _ _ Sd) as (a2 & b2 & c2 & A2 & B2 & C2 & E2).
    destruct (exact_op_inv _ _ _ _ Mpr)
      as (a3 & b3 & c3 & A3 & B3 & C3 & E3).
    destruct (exact_op_inv _ _ _ _ Atv)
      as (a4 & b4 & c4 & A4 & B4 & C4 & E4).
    destruct (exact_op_inv _ _ _ _ Atp)
      as (a5 & b5 & c5 & A5 & B5 & C5 & E5).
    destruct (IH _ _ c4 c5 C4 C5 Hrest)
      as (Hfit & qv' & qp' & Sv & Sp & Eq).
    split.
    + cbn [forallb fst snd]. now rewrite Hrun, Hfit.
    + exists qv', qp'. cbn [map row_of Value Profit_Loss fold_left].
      split; [exact Sv|]. split; [exact Sp|].
      cbn [cost_basis]. rewrite B2.
      assert (a1 = qn) by congruence. assert (b1 = a2) by congruence.
      assert (a3 = c2) by congruence. assert (b3 = qn) by congruence.
      assert (a4 = qv) by congruence. assert (b4 = c1) by congruence.
      assert (a5 = qp) by congruence. assert (b5 = c3) by congruence.
      subst a1 b1 a3 b3 a4 b4 a5 b5.
      rewrite <- En.
      assert (Hq : qp' == qv' - c4 - cost_basis r + c5)
        by (rewrite <- (Qplus_inj_r _ _ (- c5)); rewrite <- Eq; ring).
      rewrite Hq, E4, E5, E3, E1, E2. ring.
Qed.

End Identity.

(** Past the decorator, whenever no float operation of the valuation rounds
    or overflows (each conversion, product, difference and running sum is
    exact), the aggregates satisfy, as rational numbers,
    [total_profit = total_value - sum of shares * buy_price] over the
    priced items. *)
Lemma pnl_identity_when_exact w h :
  exact_run (priced w h) 0%float 0%float = true -> pnl_identity w h.
Proof.
  intros Hrun.
  destruct (exact_run_sums (priced w h) 0%float 0%float 0%Q 0%Q
              eq_refl eq_refl Hrun) as (Hfit & qv & qp & Sv & Sp & E).
  unfold pnl_identity, valuation_past_decorator.
  pose proof (value_loop_spec w h [] [] [] Hfit) as L.
  cbv zeta in L. cbn [app] in L.
  change (total_of []) with (PyInt 0) in L. rewrite L. clear L.
  destruct (priced w h) as [|it r] eqn:Ep.
  - exists (PyInt 0), (PyInt 0), [], 0%Q, 0%Q. cbn [map total_of num2Q].
    repeat split; reflexivity.
  - do 3 eexists. exists qv, qp. split; [reflexivity|].
    cbn [map total_of num2Q]. cbn [map] in Sv, Sp.
    split; [exact Sv|]. split; [exact Sp|].
    rewrite <- (Qplus_inj_r _ _ (- 0)%Q).
    setoid_replace (qp + - 0)%Q with (qp - 0)%Q by ring.
    rewrite E. ring.
Qed.

(** Past the decorator the identity is subject to binary64 rounding: for 3
    shares bought at 0.3 and priced at 0.1 the loop gives
    [total_value = 3 * 0.1] and [total_profit = (0.1 - 0.3) * 3], and the
    profit differs from the value less the cost basis, both over the
    rationals and when the right-hand side is evaluated with floats. *)
Lemma pnl_identity_fails_under_rounding :
  valuation_past_decorator (serving [dime_price]) dime_holdings
  = Ret (PyFloat (3 * dime_price)%float,
         PyFloat ((dime_price - dime_cost) * 3)%float,
         [mkRow "X" 3 dime_cost dime_price (3 * dime_price)%float
                ((dime_price - dime_cost) * 3)%float])
  /\ ((dime_price - dime_cost) * 3)%float
     <> (3 * dime_price - 3 * dime_cost)%float
  /\ ~ pnl_identity (serving [dime_price]) dime_holdings.
Proof.
  split; [reflexivity|]. split.
  - vm_compute. intros H. apply (f_equal Prim2SF) in H.
    vm_compute in H. discriminate H.
  - intros (tv & tp & rows & qv & qp & E & Hv & Hp & Hq).
    vm_compute in E. injection E as <- <- _.
    vm_compute in Hv. vm_compute in Hp.
    injection Hv as <-. injection Hp as <-.
    vm_compute in Hq. discriminate Hq.
Qed.

(** C10. [calculate_portfolio_value] returns aggregates for the empty
    portfolio only, where the identity reads 0 = 0 - 0; for every other
    portfolio the call raises in the decorator of the price lookup
    ([UnhashableParamError] for [self]), so there are no aggregates for the
    identity to hold of. *)
Theorem no_aggregates_for_held_positions :
  (forall w h,
     (h = [] /\ calculate_portfolio_value w h = Ret (PyInt 0, PyInt 0, []))
     \/ calculate_portfolio_value w h
        = Raise (UnhashableParamError "self" "get_current_price"))
  /\ calculate_portfolio_value patchy seed
     = Raise (UnhashableParamError "self" "get_current_price").
Proof.
  split; [|reflexivity].
  intros w [|[k v] r]; [left; split; reflexivity | right; reflexivity].
Qed.

(* ------------------------------------------------------------------ *)
(** ** More on ticker normalization *)

Section NormalForm.

Lemma upper_fixed s :
  all_chars (fun c => negb (is_lower c)) s = true -> upper s = s.
Proof.
  induction s as [|c r IH]; cbn [all_chars upper]; [reflexivity|].
  intros H. apply andb_prop in H as [Hc Hr]. rewrite (IH Hr).
  unfold ascii_upper. unfold is_lower in Hc.
  apply negb_true_iff in Hc. now rewrite Hc.
Qed.

Lemma lstrip_fixed s : not_space (first_char s) = true -> lstrip s = s.
Proof.
  destruct s as [|c r]; cbn [first_char not_space lstrip]; [reflexivity|].
  intros H. apply negb_true_iff in H. now rewrite H.
Qed.

Lemma rstrip_fixed s : not_space (last_char s) = true -> rstrip s = s.
Proof.
  induction s as [|c r IH]; [reflexivity|].
  cbn [rstrip]. destruct r as [|c' r'].
  - cbn [last_char not_space rstrip]. intros H.
    apply negb_true_iff in H. now rewrite H.
  - intros H. change (last_char (String c (String c' r')))
      with (last_char (String c' r')) in H.
    now rewrite (IH H).
Qed.

Lemma normalize_fixed ticker :
  normalize (normalize ticker) = normalize ticker.
Proof.
  destruct (normalize_shape ticker) as (Hup & Hfirst & Hlast & _).
  unfold normalize at 1. rewrite (upper_fixed _ Hup).
  unfold strip. rewrite (lstrip_fixed _ Hfirst). apply rstrip_fixed, Hlast.
Qed.

Lemma is_space_not_lower c : is_space c = true -> is_lower c = false.
Proof. destruct c as [[] [] [] [] [] [] [] []]; cbv; congruence. Qed.

Lemma upper_app a b : upper (a ++ b) = upper a ++ upper b.
Proof.
  induction a as [|c r IH]; cbn [append upper]; [reflexivity|].
  now rewrite IH.
Qed.

Lemma upper_spaces l : all_chars is_space l = true -> upper l = l.
Proof.
  intros H. apply upper_fixed.
  induction l as [|c r IH]; cbn [all_chars] in *; [reflexivity|].
  apply andb_prop in H as [Hc Hr].
  now rewrite (is_space_not_lower c Hc), IH.
Qed.

Lemma lstrip_spaces l s :
  all_chars is_space l = true -> lstrip (l ++ s) = lstrip s.
Proof.
  induction l as [|c r IH]; cbn [all_chars append lstrip]; [reflexivity|].
  intros H. apply andb_prop in H as [Hc Hr]. now rewrite Hc, IH.
Qed.

Lemma str_app_nil_r (s : string) : s ++ "" = s.
Proof. induction s as [|c r IH]; cbn [append]; [reflexivity|]. now rewrite IH. Qed.

Lemma str_app_assoc (a b c : string) : (a ++ b) ++ c = a ++ (b ++ c).
Proof. induction a as [|x r IH]; cbn [append]; [reflexivity|]. now rewrite IH. Qed.

Lemma lstrip_all_spaces s : all_chars is_space s = true -> lstrip s = "".
Proof.
  induction s as [|c r IH]; cbn [all_chars lstrip]; [reflexivity|].
  intros H. apply andb_prop in H as [Hc Hr]. now rewrite Hc, IH.
Qed.

Lemma rstrip_all_spaces r : all_chars is_space r = true -> rstrip r = "".
Proof.
  induction r as [|c t IH]; cbn [all_chars rstrip]; [reflexivity|].
  intros H. apply andb_prop in H as [Hc Ht]. now rewrite (IH Ht), Hc.
Qed.

Lemma rstrip_spaces s r :
  all_chars is_space r = true -> rstrip (s ++ r) = rstrip s.
Proof.
  intros Hr. induction s as [|c t IH]; cbn [append rstrip].
  - now apply rstrip_all_spaces.
  - now rewrite IH.
Qed.

Lemma upper_of_upper s u : upper_of s u -> u = upper s.
Proof.
  induction 1 as [|a b s u Hc _ IH]; [reflexivity|].
  cbn [upper]. rewrite <- IH. f_equal.
  unfold upper_char_of in Hc. unfold ascii_upper.
  change (Nat.leb 97 (nat_of_ascii a) && Nat.leb (nat_of_ascii a) 122)%bool
    with (is_lower a).
  destruct (is_lower a); [|exact Hc].
  rewrite <- Hc, Nat.add_sub. symmetry. apply ascii_nat_embedding.
Qed.

(** X1. On ASCII text, normalizing is idempotent; whitespace (TAB, LF, VT,
    FF, CR, FS, GS, RS, US, space) around a ticker does not change its
    normal form; and neither does the case of its letters: two spellings
    with the same uppercase form name the same key. *)
Theorem normalize_idempotent ticker :
  is_ascii ticker = true ->
  normalize (normalize ticker) = normalize ticker
  /\ (forall l r,
        all_chars py_whitespace l = true ->
        all_chars py_whitespace r = true ->
        normalize (l ++ ticker ++ r) = normalize ticker)
  /\ (forall ticker' u,
        upper_of ticker u -> upper_of ticker' u ->
        normalize ticker' = normalize ticker).
Proof.
  intros _. split; [apply normalize_fixed|]. split.
  - intros l r Hl Hr.
    rewrite <- (all_chars_ext _ _ l is_space_py_whitespace) in Hl.
    rewrite <- (all_chars_ext _ _ r is_space_py_whitespace) in Hr.
    unfold normalize, strip.
    rewrite !upper_app, (upper_spaces l Hl), (upper_spaces r Hr).
    rewrite (lstrip_spaces l _ Hl).
    destruct (lstrip_split (upper ticker)) as (l' & E & Hl').
    destruct (lstrip (upper ticker)) as [|c t] eqn:El.
    + rewrite str_app_nil_r in E.
      assert (Hu : all_chars is_space (upper ticker) = true)
        by (rewrite E; exact Hl').
      rewrite lstrip_all_spaces; [reflexivity|].
      now rewrite all_chars_app, Hu, Hr.
    + assert (Hc : is_space c = false).
      { pose proof (lstrip_first (upper ticker)) as H. rewrite El in H.
        cbn [first_char not_space] in H. now apply negb_true_iff in H. }
      rewrite E, str_app_assoc, (lstrip_spaces l' _ Hl').
      cbn [append lstrip]. rewrite Hc.
      change (String c (t ++ r)) with (String c t ++ r).
      now apply rstrip_spaces.
  - intros ticker' u H1 H2. unfold normalize.
    now rewrite <- (upper_of_upper _ _ H1), <- (upper_of_upper _ _ H2).
Qed.

End NormalForm.

Lemma normalize_idempotent_witness :
  normalize (" " ++ "aapl" ++ "  ") = normalize "aapl"
  /\ normalize "Aapl" = normalize "aapl".
Proof.
  destruct (normalize_idempotent "aapl" eq_refl) as (_ & H2 & H3).
  split.
  - apply H2; reflexivity.
  - apply (H3 "Aapl" "AAPL"); repeat constructor.
Defined.

(* ------------------------------------------------------------------ *)
(** ** Removing positions *)

Section Removal.

Lemma dict_get_absent k d : dict_mem k d = false -> dict_get k d = None.
Proof.
  induction d as [|[k' v'] r IH]; cbn [dict_mem dict_get]; [reflexivity|].
  destruct (String.eqb k' k); [discriminate | exact IH].
Qed.

Lemma dict_del_absent k d : dict_mem k d = false -> dict_del k d = d.
Proof.
  induction d as [|[k' v'] r IH]; cbn [dict_mem dict_del]; [reflexivity|].
  destruct (String.eqb k' k); [discriminate|].
  intros H. now rewrite IH.
Qed.

Lemma dict_mem_del k d : dict_wf d -> dict_mem k (dict_del k d) = false.
Proof.
  unfold dict_wf, keys.
  induction d as [|[k' v'] r IH]; cbn [dict_del dict_mem map fst];
    [reflexivity|].
  intros Hwf. inversion Hwf as [|? ? Hnin Hr]; subst.
  destruct (String.eqb_spec k' k) as [->|Hk].
  - destruct (dict_mem k r) eqn:E; [|reflexivity].
    apply dict_mem_In in E. contradiction.
  - cbn [dict_mem]. destruct (String.eqb_spec k' k); [contradiction|].
    now apply IH.
Qed.

Lemma dict_get_del_other k k' d :
  k' <> k -> dict_get k' (dict_del k d) = dict_get k' d.
Proof.
  intros Hne. induction d as [|[k0 v0] r IH]; cbn [dict_del dict_get];
    [reflexivity|].
  destruct (String.eqb_spec k0 k) as [->|Hk].
  - destruct (String.eqb_spec k k'); [congruence | reflexivity].
  - cbn [dict_get]. now rewrite IH.
Qed.

Lemma filter_keys_absent k d :
  dict_mem k d = false ->
  filter (fun x => negb (String.eqb x k)) (keys d) = keys d.
Proof.
  unfold keys.
  induction d as [|[k' v'] r IH]; cbn [dict_mem map fst filter];
    [reflexivity|].
  destruct (String.eqb k' k); [discriminate|]. cbn [negb].
  intros H. now rewrite IH.
Qed.

(** Deleting a key keeps the other keys in their order. *)
Lemma keys_del k d :
  dict_wf d ->
  keys (dict_del k d) = filter (fun x => negb (String.eqb x k)) (keys d).
Proof.
  unfold dict_wf.
  induction d as [|[k' v'] r IH]; cbn [dict_del]; [reflexivity|].
  unfold keys in *. cbn [map fst filter]. intros Hwf.
  inversion Hwf as [|? ? Hnin Hr]; subst.
  destruct (String.eqb_spec k' k) as [->|Hk]; cbn [negb].
  - symmetry. apply (filter_keys_absent k r).
    destruct (dict_mem k r) eqn:E; [|reflexivity].
    apply dict_mem_In in E. contradiction.
  - cbn [map fst]. now rewrite IH.
Qed.

Lemma dict_del_set k v d : dict_del k (dict_set k v d) = dict_del k d.
Proof.
  induction d as [|[k' v'] r IH]; cbn [dict_set dict_del].
  - now rewrite String.eqb_refl.
  - destruct (String.eqb k' k) eqn:E; cbn [dict_del].
    + now rewrite String.eqb_refl.
    + now rewrite E, IH.
Qed.

(** X2. [remove_stock] never raises and returns whether the normalized
    ticker was held.  Afterwards that key is absent, every other key maps
    to what it did, and the remaining keys keep their order; when the
    ticker was not held the holdings are untouched and one warning naming
    it is shown, otherwise nothing is shown. *)
Theorem remove_stock_spec ticker s :
  dict_wf (st_holdings s) ->
  let k := normalize ticker in
  let h := st_holdings s in
  let h' := st_holdings (snd (remove_stock ticker s)) in
  fst (remove_stock ticker s) = Ret (dict_mem k h)
  /\ dict_mem k h' = false
  /\ dict_get k h' = None
  /\ (forall k', k' <> k -> dict_get k' h' = dict_get k' h)
  /\ keys h' = filter (fun x => negb (String.eqb x k)) (keys h)
  /\ dict_wf h'
  /\ (dict_mem k h = false ->
      snd (remove_stock ticker s)
      = mkStore h (st_shown s
                   ++ [StWarning (k ++ " not found in portfolio.")]))
  /\ (dict_mem k h = true ->
      st_shown (snd (remove_stock ticker s)) = st_shown s).
Proof.
  intros Hwf k h h'. subst h h'.
  unfold remove_stock, mbind, get_holdings, del_item. fold k.
  generalize dependent k. intros k.
  destruct (dict_mem k (st_holdings s)) eqn:E.
  - rewrite ?E. cbn [fst snd st_holdings st_shown ret].
    pose proof (dict_mem_del k (st_holdings s) Hwf) as Hm.
    split; [reflexivity|]. split; [exact Hm|].
    split; [now apply dict_get_absent|].
    split; [intros k' Hk; now apply dict_get_del_other|].
    split; [now apply keys_del|].
    split; [now apply dict_del_wf|].
    split; [discriminate | reflexivity].
  - cbn [fst snd st_holdings st_shown ret show].
    split; [reflexivity|]. split; [exact E|].
    split; [now apply dict_get_absent|].
    split; [reflexivity|].
    split; [symmetry; now apply filter_keys_absent|].
    split; [exact Hwf|].
    split; [reflexivity | discriminate].
Qed.

Lemma remove_stock_spec_witness :
  fst (remove_stock " googl" (mkStore seed [])) = Ret true
  /\ keys (st_holdings (snd (remove_stock " googl" (mkStore seed []))))
     = ["AAPL"; "MSFT"].
Proof.
  pose proof (remove_stock_spec " googl" (mkStore seed []) seed_wf) as H.
  cbv zeta in H. destruct H as (H1 & _ & _ & _ & H5 & _).
  split; [exact H1 | exact H5].
Defined.

End Removal.

(* ------------------------------------------------------------------ *)
(** ** How [add_stock] decides, and how it composes with [remove_stock] *)

Section Decisions.

Variable w : World.

(** X3. [add_stock] reports the first step that fails, in the order of the
    source: the [int()] coercion, the [float()] coercion, the shares guard,
    the price guard, the date, each with the holdings untouched; then,
    after the position is written, the formatting of the share count for
    the log, which raises [ValueError] for a count of more than 4300
    digits, so that the call returns [False] with the position stored.
    When no step fails it stores the position and returns [True] without
    showing anything. *)
Theorem add_stock_first_failure ticker sh bp da s :
  let k := normalize ticker in
  (forall e, py_int sh = Raise e ->
     add_stock w ticker sh bp da s = (Ret false, reported s k e))
  /\ (forall n e, py_int sh = Ret n -> py_float bp = Raise e ->
     add_stock w ticker sh bp da s = (Ret false, reported s k e))
  /\ (forall n x, py_int sh = Ret n -> py_float bp = Ret x -> (n <= 0)%Z ->
     add_stock w ticker sh bp da s
     = (Ret false, reported s k (ValueError msg_shares)))
  /\ (forall n x, py_int sh = Ret n -> py_float bp = Ret x -> (0 < n)%Z ->
     py_le x 0%float = true ->
     add_stock w ticker sh bp da s
     = (Ret false, reported s k (ValueError msg_price)))
  /\ (forall n x e, py_int sh = Ret n -> py_float bp = Ret x -> (0 < n)%Z ->
     py_le x 0%float = false -> check_date w da = Raise e ->
     add_stock w ticker sh bp da s = (Ret false, reported s k e))
  /\ (forall n x d, py_int sh = Ret n -> py_float bp = Ret x -> (0 < n)%Z ->
     py_le x 0%float = false -> check_date w da = Ret d ->
     (str_digits_limit <= n)%Z ->
     add_stock w ticker sh bp da s
     = (Ret false,
        reported (mkStore (dict_set k (mkPosition n x d) (st_holdings s))
                          (st_shown s))
                 k (ValueError msg_digits)))
  /\ (forall n x d, py_int sh = Ret n -> py_float bp = Ret x -> (0 < n)%Z ->
     py_le x 0%float = false -> check_date w da = Ret d ->
     (n < str_digits_limit)%Z ->
     add_stock w ticker sh bp da s
     = (Ret true,
        mkStore (dict_set k (mkPosition n x d) (st_holdings s))
                (st_shown s))).
Proof.
  intros k. subst k. rewrite add_stock_eq. unfold validate.
  repeat split.
  - intros e ->. reflexivity.
  - intros n e -> ->. reflexivity.
  - intros n x -> -> Hle. cbn [bind].
    replace (n <=? 0)%Z with true by (symmetry; apply Z.leb_le; exact Hle).
    reflexivity.
  - intros n x -> -> Hpos Hle. cbn [bind].
    replace (n <=? 0)%Z with false by (symmetry; apply Z.leb_gt; exact Hpos).
    cbn [raise_if bind]. rewrite Hle. reflexivity.
  - intros n x e -> -> Hpos Hle He. cbn [bind].
    replace (n <=? 0)%Z with false by (symmetry; apply Z.leb_gt; exact Hpos).
    cbn [raise_if bind]. rewrite Hle. cbn [raise_if bind]. rewrite He.
    reflexivity.
  - intros n x d -> -> Hpos Hle Hd Hbig. cbn [bind].
    replace (n <=? 0)%Z with false by (symmetry; apply Z.leb_gt; exact Hpos).
    cbn [raise_if bind]. rewrite Hle. cbn [raise_if bind]. rewrite Hd.
    cbn [bind shares]. cbv zeta. now rewrite (format_int_large n Hbig).
  - intros n x d -> -> Hpos Hle Hd Hsmall. cbn [bind].
    replace (n <=? 0)%Z with false by (symmetry; apply Z.leb_gt; exact Hpos).
    cbn [raise_if bind]. rewrite Hle. cbn [raise_if bind]. rewrite Hd.
    cbn [bind shares]. cbv zeta.
    now rewrite (format_int_small n (conj Hpos Hsmall)).
Qed.


Lemma remove_stock_present ticker s :
  dict_mem (normalize ticker) (st_holdings s) = true ->
  remove_stock ticker s
  = (Ret true,
     mkStore (dict_del (normalize ticker) (st_holdings s)) (st_shown s)).
Proof.
  intros H. unfold remove_stock, mbind, get_holdings, del_item.
  rewrite H. rewrite H. reflexivity.
Qed.

(** X5. Removing a ticker right after adding it undoes the addition: the
    holdings are those before the addition without that key, hence exactly
    those before when the ticker was not held. *)
Theorem add_then_remove ticker ticker' sh bp da s :
  fst (add_stock w ticker sh bp da s) = Ret true ->
  normalize ticker' = normalize ticker ->
  let s' := snd (remove_stock ticker' (snd (add_stock w ticker sh bp da s))) in
  fst (remove_stock ticker' (snd (add_stock w ticker sh bp da s))) = Ret true
  /\ st_holdings s' = dict_del (normalize ticker) (st_holdings s)
  /\ st_shown s' = st_shown s
  /\ (dict_mem (normalize ticker) (st_holdings s) = false -> s' = s).
Proof.
  intros Hok Hk s'. subst s'.
  assert (E : add_stock w ticker sh bp da s
              = (Ret true,
                 mkStore (st_holdings (snd (add_stock w ticker sh bp da s)))
                         (st_shown s))
              /\ st_holdings (snd (add_stock w ticker sh bp da s))
                 = match validate w sh bp da with
                   | Ret p => dict_set (normalize ticker) p (st_holdings s)
                   | Raise _ => st_holdings s
                   end
              /\ exists p, validate w sh bp da = Ret p).
  { rewrite add_stock_eq in Hok |- *.
    destruct (validate w sh bp da) as [p|e]; [|discriminate Hok].
    cbv zeta in Hok |- *.
    destruct (format_int (shares p)); [|discriminate Hok].
    cbn [snd st_holdings]. eauto. }
  destruct E as (E & Eh & p & V). rewrite V in Eh.
  rewrite E, Eh.
  cbn [snd]. rewrite remove_stock_present;
    rewrite Hk; cbn [st_holdings st_shown]; [|apply dict_mem_set].
  cbn [fst snd st_holdings st_shown]. rewrite dict_del_set.
  split; [reflexivity|]. split; [reflexivity|]. split; [reflexivity|].
  intros Habs. rewrite (dict_del_absent _ _ Habs). now destruct s.
Qed.

End Decisions.

Lemma add_then_remove_witness :
  snd (remove_stock "TSLA "
         (snd (add_stock offline " tsla" (PyInt 3) (PyFloat 200%float) None
                         (mkStore seed []))))
  = mkStore seed [].
Proof.
  refine (proj2 (proj2 (proj2
            (add_then_remove offline " tsla" "TSLA " (PyInt 3)
               (PyFloat 200%float) None (mkStore seed [])
               eq_refl eq_refl))) _).
  reflexivity.
Defined.


Lemma add_stock_first_failure_witness :
  add_stock offline "x" (PyInt str_digits_limit) (PyFloat 1%float) None
            (mkStore [] [])
  = (Ret false,
     reported
       (mkStore [("X", mkPosition str_digits_limit 1%float "2026-01-02")] [])
       "X" (ValueError msg_digits)).
Proof.
  refine (proj1 (proj2 (proj2 (proj2 (proj2 (proj2
            (add_stock_first_failure offline "x" (PyInt str_digits_limit)
               (PyFloat 1%float) None (mkStore [] [])))))))
            str_digits_limit 1%float "2026-01-02" _ _ _ _ _ _);
    reflexivity || (vm_compute; congruence).
Defined.


(* ------------------------------------------------------------------ *)
(** ** Invariants of the store *)

Section StoreInvariants.

Lemma keys_set_incl k v d a :
  In a (keys (dict_set k v d)) -> a = k \/ In a (keys d).
Proof.
  unfold keys.
  induction d as [|[k' v'] r IH]; cbn [dict_set map fst In].
  - intros [<-|[]]. now left.
  - destruct (String.eqb_spec k' k) as [->|Hk]; cbn [map fst In].
    + intros [<-|H]; [now left | now right; right].
    + intros [<-|H]; [now right; left|].
      destruct (IH H) as [->|H']; [now left | now right; right].
Qed.

Lemma keys_normal_set k v d :
  keys_normal d -> normalize k = k -> keys_normal (dict_set k v d).
Proof.
  unfold keys_normal. rewrite !Forall_forall. intros Hd Hk a Ha.
  destruct (keys_set_incl k v d a Ha) as [->|H]; [exact Hk | now apply Hd].
Qed.

Lemma keys_normal_del k d : keys_normal d -> keys_normal (dict_del k d).
Proof.
  unfold keys_normal. rewrite !Forall_forall. intros Hd a Ha.
  apply Hd. now apply (keys_del_incl k).
Qed.

Lemma run_keeps_keys_normal w ops s :
  keys_normal (st_holdings s) -> keys_normal (st_holdings (run w ops s)).
Proof.
  unfold run. revert s.
  induction ops as [|o ops IH]; intros s Hs; cbn [fold_left]; [exact Hs|].
  apply IH. destruct o as [t sh bp da | t]; cbn [step].
  - destruct (add_stock_holdings w t sh bp da s)
      as [-> | (n & x & d & _ & _ & _ & ->)]; [exact Hs|].
    apply keys_normal_set; [exact Hs | apply normalize_fixed].
  - destruct (remove_stock_cases t s) as [-> | ->]; cbn [snd st_holdings];
      [now apply keys_normal_del | exact Hs].
Qed.

(** X6. Every sequence of [add_stock] and [remove_stock] calls keeps the
    representation of the store: the keys stay pairwise distinct, every key
    is an uppercased and trimmed ticker (its own normal form), every share
    count is positive and no stored price is [<= 0]. *)
Theorem run_keeps_store_invariants w ops s :
  dict_wf (st_holdings s) ->
  portfolio_checked (st_holdings s) = true ->
  keys_normal (st_holdings s) ->
  let h' := st_holdings (run w ops s) in
  dict_wf h' /\ portfolio_checked h' = true /\ keys_normal h'.
Proof.
  intros Hwf Hc Hk h'. subst h'.
  destruct (run_keeps_checked w ops s Hc Hwf) as [Hc' Hwf'].
  split; [exact Hwf'|]. split; [exact Hc'|].
  now apply run_keeps_keys_normal.
Qed.

Lemma seed_keys_normal : keys_normal seed.
Proof. repeat constructor. Defined.

Lemma run_keeps_store_invariants_witness :
  dict_wf (st_holdings (run offline sample_ops (mkStore seed [])))
  /\ portfolio_checked
       (st_holdings (run offline sample_ops (mkStore seed []))) = true
  /\ keys_normal (st_holdings (run offline sample_ops (mkStore seed []))).
Proof.
  exact (run_keeps_store_invariants offline sample_ops (mkStore seed [])
           seed_wf eq_refl seed_keys_normal).
Defined.

(** X7. A ticker listed in the holdings can always be removed under the
    name it is listed with: [remove_stock] on a key of the dict returns
    [True], deletes exactly that key and shows nothing. *)
Theorem listed_ticker_is_removable k s :
  dict_wf (st_holdings s) -> keys_normal (st_holdings s) ->
  In k (keys (st_holdings s)) ->
  remove_stock k s
  = (Ret true, mkStore (dict_del k (st_holdings s)) (st_shown s))
  /\ ~ In k (keys (dict_del k (st_holdings s))).
Proof.
  intros Hwf Hn Hin.
  assert (Hk : normalize k = k)
    by (unfold keys_normal in Hn; rewrite Forall_forall in Hn; auto).
  split.
  - rewrite remove_stock_present; rewrite Hk; [reflexivity|].
    now apply dict_mem_In.
  - intros H. apply dict_mem_In in H.
    rewrite (dict_mem_del k _ Hwf) in H. discriminate H.
Qed.

Lemma listed_ticker_is_removable_witness :
  remove_stock "TSLA" (run offline sample_ops (mkStore seed []))
  = (Ret true,
     mkStore [("AAPL", mkPosition 10 150%float "2025-08-01");
              ("MSFT", mkPosition 1 310%float "2025-09-01")]
       (st_shown (run offline sample_ops (mkStore seed [])))).
Proof.
  refine (proj1 (listed_ticker_is_removable "TSLA"
                   (run offline sample_ops (mkStore seed [])) _ _ _)).
  - exact (proj2 (run_keeps_checked offline sample_ops (mkStore seed [])
                    eq_refl seed_wf)).
  - exact (run_keeps_keys_normal offline sample_ops (mkStore seed [])
             seed_keys_normal).
  - vm_compute. auto.
Defined.

Lemma run_keeps_ok_without_nan_witness :
  portfolio_ok (st_holdings (run offline sample_ops (mkStore seed [])))
  = true.
Proof.
  apply (run_keeps_ok_without_nan offline sample_ops (mkStore seed []));
    reflexivity.
Defined.

End StoreInvariants.

(* ------------------------------------------------------------------ *)
(** ** More on prices *)

Section Prices.

Variable w : World.

Lemma nth_error_last (xs : list float) d :
  xs <> [] -> nth_error xs (List.length xs - 1) = Some (last xs d).
Proof.
  induction xs as [|x r IH]; [congruence|]. intros _.
  destruct r as [|y r']; [reflexivity|].
  cbn [List.length]. replace (S (S (List.length r')) - 1)%nat
    with (S (List.length (y :: r') - 1)) by (cbn [List.length]; lia).
  cbn [nth_error]. rewrite IH by discriminate. reflexivity.
Qed.

Lemma iloc_last (xs : list float) d :
  xs <> [] -> iloc xs (-1) = Ret (last xs d).
Proof.
  intros Hne. unfold iloc.
  assert (Hlen : (0 < List.length xs)%nat)
    by (destruct xs; [congruence | cbn; lia]).
  change (-1 <? 0)%Z with true. cbv beta iota.
  replace (Z.of_nat (List.length xs) + -1 <? 0)%Z with false
    by (symmetry; apply Z.ltb_ge; lia).
  replace (Z.of_nat (List.length xs) <=? Z.of_nat (List.length xs) + -1)%Z
    with false by (symmetry; apply Z.leb_gt; lia).
  cbn [orb].
  replace (Z.to_nat (Z.of_nat (List.length xs) + -1))
    with (List.length xs - 1)%nat by lia.
  now rewrite (nth_error_last xs d Hne).
Qed.

(** X9. [get_current_price], as decorated at line 58, raises
    [UnhashableParamError] for [self] on every call.  The function under
    the decorator (lines 60-70) never raises: its price is unavailable
    ([None]) when the fetch raises, when the frame has no rows and when it
    has rows but no Close column; otherwise it is the last close. *)
Theorem get_current_price_cases ticker :
  get_current_price w ticker = Raise (unhashable_self "get_current_price")
  /\ (forall e, yf_history w ticker P1d = Raise e ->
      get_current_price_body w ticker = Ret None)
  /\ (forall df, yf_history w ticker P1d = Ret df -> df_len df = 0%nat ->
      get_current_price_body w ticker = Ret None)
  /\ (forall rows, yf_history w ticker P1d = Ret (FrameNoClose rows) ->
      get_current_price_body w ticker = Ret None)
  /\ (forall close, yf_history w ticker P1d = Ret (Frame close) ->
      close <> [] ->
      get_current_price_body w ticker = Ret (Some (last close nan))).
Proof.
  split; [reflexivity|].
  unfold get_current_price_body. repeat split.
  - intros e ->. reflexivity.
  - intros df -> Hlen. cbn [bind py_try]. unfold df_empty. now rewrite Hlen.
  - intros rows ->. cbn [bind]. unfold df_empty. cbn [df_len].
    destruct (Nat.eqb rows 0); reflexivity.
  - intros close -> Hne. cbn [bind]. unfold df_empty. cbn [df_len df_close].
    destruct close as [|x r]; [congruence|]. cbn [List.length Nat.eqb bind].
    now rewrite (iloc_last (x :: r) nan Hne).
Qed.

End Prices.

Lemma get_current_price_cases_witness :
  get_current_price_body patchy "AAPL" = Ret (Some 120%float)
  /\ get_current_price_body patchy "GOOGL" = Ret None.
Proof.
  split.
  - refine (proj2 (proj2 (proj2 (proj2
             (get_current_price_cases patchy "AAPL")))) [120%float] _ _);
      [reflexivity | discriminate].
  - refine (proj1 (proj2 (get_current_price_cases patchy "GOOGL")) _ _).
    reflexivity.
Defined.

(* ------------------------------------------------------------------ *)
(** ** More on signals *)

Section Signals.

Variable w : World.

(** X12. The function under the decorator of [generate_signals] returns
    one of six strings, each naming the ticker it was asked about:
    Insufficient, Invalid, Buy, Sell, plain Hold or Error. *)
Theorem generate_signals_outcomes ticker :
  exists s, generate_signals_undecorated w ticker = Ret s /\ In s (sig_outcomes ticker).
Proof.
  unfold generate_signals_undecorated, generate_signals_body, sig_outcomes.
  destruct (yf_history w ticker P1y) as [hist|e]; cbn [bind py_try].
  2: { eexists. split; [reflexivity|]. cbn [In]. tauto. }
  destruct (df_len hist <? 200)%nat.
  { eexists. split; [reflexivity|]. cbn [In]. tauto. }
  destruct (df_close hist) as [close|e]; cbn [bind py_try].
  2: { eexists. split; [reflexivity|]. cbn [In]. tauto. }
  repeat match goal with
  | |- context [bind (iloc ?c ?i) _] =>
      destruct (iloc c i); cbn [bind py_try];
      [| eexists; split; [reflexivity|]; cbn [In]; tauto]
  end.
  repeat match goal with
  | |- context [if ?b then _ else _] => destruct b
  end; cbn [py_try]; eexists; (split; [reflexivity|]); cbn [In]; tauto.
Qed.

Lemma existsb_skipn (f : float -> bool) a xs :
  existsb f (skipn a xs) = true -> existsb f xs = true.
Proof.
  revert xs. induction a as [|a IH]; intros xs; [trivial|].
  destruct xs as [|x r]; cbn [skipn existsb]; [trivial|].
  intros H. rewrite (IH r H). apply orb_true_r.
Qed.

Lemma existsb_skipn_more (f : float -> bool) a b xs :
  existsb f (skipn (a + b) xs) = true -> existsb f (skipn b xs) = true.
Proof.
  rewrite <- skipn_skipn. apply existsb_skipn.
Qed.

(** The window of 200 at the last index is the last 200 entries. *)
Lemma window_latest close :
  (200 <= List.length close)%nat ->
  window 200 close (List.length close - 1) = last_n 200 close.
Proof.
  intros Hn. unfold window, last_n.
  replace (List.length close - 1 + 1 - 200)%nat
    with (List.length close - 200)%nat by lia.
  apply firstn_all2. rewrite length_skipn. lia.
Qed.

(** X13. The function under the decorator answers Buy or Sell only on a
    fetched history of at least 201 closes none of whose last 201 is
    NaN. *)
Theorem trade_signal_needs_history ticker :
  generate_signals_undecorated w ticker = Ret (sig_buy ticker)
  \/ generate_signals_undecorated w ticker = Ret (sig_sell ticker) ->
  exists close,
    yf_history w ticker P1y = Ret (Frame close)
    /\ (201 <= List.length close)%nat
    /\ existsb np_isnan (last_n 201 close) = false.
Proof.
  intros H. unfold generate_signals_undecorated in H.
  destruct (yf_history w ticker P1y) as [hist|e] eqn:Eh.
  2: { unfold generate_signals_body in H. rewrite Eh in H.
       destruct H as [H|H]; discriminate H. }
  destruct (df_len hist <? 200)%nat eqn:El.
  { unfold generate_signals_body in H. rewrite Eh in H. cbn [bind] in H.
    rewrite El in H. destruct H as [H|H]; discriminate H. }
  apply Nat.ltb_ge in El.
  destruct hist as [close|rows].
  2: { unfold generate_signals_body in H. rewrite Eh in H. cbn [bind] in H.
       replace (df_len (FrameNoClose rows) <? 200)%nat with false in H
         by (symmetry; apply Nat.ltb_ge; exact El).
       destruct H as [H|H]; discriminate H. }
  cbn [df_len] in El. exists close. split; [reflexivity|].
  rewrite (generate_signals_body_long w ticker close Eh El) in H.
  set (n := List.length close) in *.
  destruct (np_isnan (rolling_mean_at (roll_kernel w) 50 close (n - 1))
            || np_isnan (rolling_mean_at (roll_kernel w) 200 close (n - 1)))%bool
    eqn:Enan; [destruct H as [H|H]; discriminate H|].
  apply orb_false_elim in Enan as [_ N200].
  assert (P200 : np_isnan (rolling_mean_at (roll_kernel w) 200 close (n - 2))
                 = false).
  { destruct (np_isnan (rolling_mean_at (roll_kernel w) 200 close (n - 2)))
      eqn:E; [|reflexivity]. exfalso.
    assert (Ep : rolling_mean_at (roll_kernel w) 200 close (n - 2) = nan).
    { unfold np_isnan in E. apply Prim2SF_inj.
      unfold Prim2SF at 1. now rewrite E. }
    rewrite Ep in H. unfold py_ge in H. rewrite le_nan_r, le_nan_l in H.
    cbn [andb py_try] in H. destruct H as [H|H]; discriminate H. }
  unfold rolling_mean_at in N200, P200.
  destruct ((n - 1 + 1 <? 200)%nat
            || existsb np_isnan (window 200 close (n - 1)))%bool eqn:C1;
    [discriminate N200|].
  destruct ((n - 2 + 1 <? 200)%nat
            || existsb np_isnan (window 200 close (n - 2)))%bool eqn:C2;
    [discriminate P200|].
  apply orb_false_elim in C1 as [_ W1].
  apply orb_false_elim in C2 as [L2 W2].
  apply Nat.ltb_ge in L2. subst n.
  assert (Hn : (201 <= List.length close)%nat) by lia.
  split; [exact Hn|].
  rewrite (window_latest close El) in W1.
  unfold window in W2. unfold last_n in *.
  replace (List.length close - 2 + 1 - 200)%nat
    with (List.length close - 201)%nat in W2 by lia.
  rewrite <- (firstn_skipn 200 (skipn (List.length close - 201) close)).
  rewrite existsb_app, W2. cbn [orb].
  rewrite skipn_skipn.
  destruct (existsb np_isnan
              (skipn (200 + (List.length close - 201)) close)) eqn:E;
    [|reflexivity].
  replace (200 + (List.length close - 201))%nat
    with (199 + (List.length close - 200))%nat in E by lia.
  apply existsb_skipn_more in E. congruence.
Qed.

(** X14. With 200 rows or more, a NaN among the last 200 closes makes the
    latest SMA200 undefined, and the function under the decorator answers
    Hold/Invalid. *)
Theorem nan_close_gives_invalid ticker close :
  yf_history w ticker P1y = Ret (Frame close) ->
  (200 <= List.length close)%nat ->
  existsb np_isnan (last_n 200 close) = true ->
  generate_signals_undecorated w ticker = Ret (sig_invalid ticker).
Proof.
  intros Hh Hn Hnan. unfold generate_signals_undecorated.
  rewrite (generate_signals_body_long w ticker close Hh Hn).
  assert (E : rolling_mean_at (roll_kernel w) 200 close
                (List.length close - 1) = nan).
  { unfold rolling_mean_at. rewrite (window_latest close Hn), Hnan.
    now rewrite orb_true_r. }
  rewrite E. change (np_isnan nan) with true. now rewrite orb_true_r.
Qed.

(** X17. With at least 200 observations and both latest averages defined,
    the function under the decorator applies the crossover rule to the
    averages at the last two indices: Buy when previous SMA50 <= previous
    SMA200 and latest SMA50 > latest SMA200; Sell when previous SMA50 >=
    previous SMA200 and latest SMA50 < latest SMA200 (the Buy test, tried
    first, is then false); Hold when neither holds.  A tie of the latest
    averages gives Hold, and a tie of the previous averages with latest
    SMA50 above gives Buy. *)
Theorem undecorated_crossover ticker close :
  yf_history w ticker P1y = Ret (Frame close) ->
  (200 <= List.length close)%nat ->
  let n := List.length close in
  let l50 := rolling_mean_at (roll_kernel w) 50 close (n - 1) in
  let l200 := rolling_mean_at (roll_kernel w) 200 close (n - 1) in
  let p50 := rolling_mean_at (roll_kernel w) 50 close (n - 2) in
  let p200 := rolling_mean_at (roll_kernel w) 200 close (n - 2) in
  np_isnan l50 = false -> np_isnan l200 = false ->
  (py_le p50 p200 = true -> py_gt l50 l200 = true ->
   generate_signals_undecorated w ticker = Ret (sig_buy ticker))
  /\ (py_ge p50 p200 = true -> py_lt l50 l200 = true ->
      generate_signals_undecorated w ticker = Ret (sig_sell ticker))
  /\ (~ (py_le p50 p200 = true /\ py_gt l50 l200 = true) ->
      ~ (py_ge p50 p200 = true /\ py_lt l50 l200 = true) ->
      generate_signals_undecorated w ticker = Ret (sig_hold ticker))
  /\ (py_eq l50 l200 = true ->
      generate_signals_undecorated w ticker = Ret (sig_hold ticker))
  /\ (py_eq p50 p200 = true -> py_gt l50 l200 = true ->
      generate_signals_undecorated w ticker = Ret (sig_buy ticker)).
Proof.
  intros Hh Hn n l50 l200 p50 p200 N50 N200.
  unfold generate_signals_undecorated.
  rewrite (generate_signals_body_long w ticker close Hh Hn).
  fold n. fold l50 l200 p50 p200. rewrite N50, N200. cbn [orb].
  repeat split.
  - intros -> ->. reflexivity.
  - intros Hge Hlt. rewrite (lt_not_gt _ _ Hlt), Hge, Hlt.
    rewrite andb_false_r. reflexivity.
  - intros Hb Hs.
    destruct (py_le p50 p200) eqn:E1, (py_gt l50 l200) eqn:E2;
      try (exfalso; apply Hb; now split); cbn [andb];
      destruct (py_ge p50 p200) eqn:E3, (py_lt l50 l200) eqn:E4;
      try (exfalso; apply Hs; now split); reflexivity.
  - intros Heq. destruct (eq_not_lt _ _ Heq) as [-> ->].
    rewrite !andb_false_r. reflexivity.
  - intros Heq ->. destruct (eq_le_ge _ _ Heq) as [-> _]. reflexivity.
Qed.

(** X18. With fewer than 200 rows the function under the decorator answers
    Hold/Insufficient, whatever the frame holds (also without a Close
    column) and whatever the rolling kernel would compute. *)
Theorem undecorated_insufficient ticker hist :
  yf_history w ticker P1y = Ret hist ->
  (df_len hist < 200)%nat ->
  generate_signals_undecorated w ticker = Ret (sig_insufficient ticker).
Proof.
  intros Hh Hn. unfold generate_signals_undecorated, generate_signals_body.
  rewrite Hh. cbn [bind].
  replace (df_len hist <? 200)%nat with true
    by (symmetry; apply Nat.ltb_lt; exact Hn).
  reflexivity.
Qed.

(** X19. With exactly 200 observations the previous-point SMA200 is NaN, so
    neither crossover test can succeed: the function under the decorator
    answers a Hold (plain, or Invalid when a latest average is NaN), never
    Buy or Sell. *)
Theorem undecorated_200_holds ticker close :
  yf_history w ticker P1y = Ret (Frame close) ->
  List.length close = 200%nat ->
  rolling_mean_at (roll_kernel w) 200 close 198 = nan
  /\ (generate_signals_undecorated w ticker = Ret (sig_hold ticker)
      \/ generate_signals_undecorated w ticker = Ret (sig_invalid ticker))
  /\ generate_signals_undecorated w ticker <> Ret (sig_buy ticker)
  /\ generate_signals_undecorated w ticker <> Ret (sig_sell ticker)
  /\ (np_isnan (rolling_mean_at (roll_kernel w) 50 close 199) = false ->
      np_isnan (rolling_mean_at (roll_kernel w) 200 close 199) = false ->
      generate_signals_undecorated w ticker = Ret (sig_hold ticker)).
Proof.
  intros Hh Hn.
  assert (Hp : rolling_mean_at (roll_kernel w) 200 close 198 = nan)
    by reflexivity.
  assert (Hg : generate_signals_undecorated w ticker = Ret (sig_hold ticker)
               \/ generate_signals_undecorated w ticker
                  = Ret (sig_invalid ticker)).
  { unfold generate_signals_undecorated.
    rewrite (generate_signals_body_long w ticker close Hh) by lia.
    rewrite Hn. change (200 - 2)%nat with 198%nat. rewrite Hp.
    unfold py_ge. rewrite le_nan_r, le_nan_l. cbn [andb].
    destruct (_ || _)%bool; [right | left]; reflexivity. }
  split; [exact Hp|]. split; [exact Hg|].
  split; [|split].
  - destruct Hg as [-> | ->]; discriminate.
  - destruct Hg as [-> | ->]; discriminate.
  - intros N50 N200. unfold generate_signals_undecorated.
    rewrite (generate_signals_body_long w ticker close Hh) by lia.
    rewrite Hn. change (200 - 1)%nat with 199%nat.
    change (200 - 2)%nat with 198%nat.
    rewrite N50, N200, Hp. unfold py_ge. rewrite le_nan_r, le_nan_l.
    reflexivity.
Qed.

(** X20. The function under the decorator never raises: whenever the body
    of its [try] raises, in particular when the fetch raises or a frame of
    200 rows or more lacks its Close column, it answers Hold/Error; a
    frame of fewer rows lacking the column is answered Insufficient. *)
Theorem undecorated_never_raises ticker :
  (exists s, generate_signals_undecorated w ticker = Ret s)
  /\ (forall e, generate_signals_body w ticker = Raise e ->
      generate_signals_undecorated w ticker = Ret (sig_error ticker))
  /\ (forall e, yf_history w ticker P1y = Raise e ->
      generate_signals_undecorated w ticker = Ret (sig_error ticker))
  /\ (forall rows, yf_history w ticker P1y = Ret (FrameNoClose rows) ->
      generate_signals_undecorated w ticker
      = Ret (if (rows <? 200)%nat then sig_insufficient ticker
             else sig_error ticker)).
Proof.
  unfold generate_signals_undecorated. repeat split.
  - destruct (generate_signals_body w ticker); cbn [py_try];
      eexists; reflexivity.
  - intros e ->. reflexivity.
  - intros e He. unfold generate_signals_body. rewrite He. reflexivity.
  - intros rows Hh. unfold generate_signals_body. rewrite Hh.
    cbn [bind df_len]. destruct (rows <? 200)%nat; reflexivity.
Qed.

End Signals.

Lemma trade_signal_needs_history_witness :
  exists close,
    yf_history (serving (flat_then 200%float)) "X" P1y = Ret (Frame close)
    /\ (201 <= List.length close)%nat
    /\ existsb np_isnan (last_n 201 close) = false.
Proof.
  apply (trade_signal_needs_history (serving (flat_then 200%float)) "X").
  left. vm_compute. reflexivity.
Defined.

Lemma nan_close_gives_invalid_witness :
  generate_signals_undecorated (serving (repeat 100%float 120 ++ [nan]
                             ++ repeat 100%float 129)) "X"
  = Ret (sig_invalid "X").
Proof.
  apply (nan_close_gives_invalid
           (serving (repeat 100%float 120 ++ [nan] ++ repeat 100%float 129))
           "X"
           (repeat 100%float 120 ++ [nan] ++ repeat 100%float 129) eq_refl).
  - apply Nat.leb_le. reflexivity.
  - reflexivity.
Defined.

Lemma undecorated_crossover_witness :
  generate_signals_undecorated (serving (flat_then 200)) "X"
  = Ret (sig_buy "X").
Proof.
  refine (proj1 (undecorated_crossover (serving (flat_then 200)) "X"
                   (flat_then 200) eq_refl _ _ _) _ _).
  - apply Nat.leb_le. reflexivity.
  - vm_compute. reflexivity.
  - vm_compute. reflexivity.
  - vm_compute. reflexivity.
  - vm_compute. reflexivity.
Defined.

Lemma undecorated_insufficient_witness :
  generate_signals_undecorated (serving (repeat 100%float 199)) "X"
  = Ret (sig_insufficient "X").
Proof.
  apply (undecorated_insufficient (serving (repeat 100%float 199)) "X"
           (Frame (repeat 100%float 199)) eq_refl).
  apply Nat.ltb_lt. reflexivity.
Defined.

Lemma undecorated_200_holds_witness :
  generate_signals_undecorated
    (serving (repeat 100%float 199 ++ [200%float])) "X"
  = Ret (sig_hold "X").
Proof.
  refine (proj2 (proj2 (proj2 (proj2
            (undecorated_200_holds
               (serving (repeat 100%float 199 ++ [200%float])) "X"
               (repeat 100%float 199 ++ [200%float]) eq_refl eq_refl)))) _ _).
  - vm_compute. reflexivity.
  - vm_compute. reflexivity.
Defined.

Lemma undecorated_never_raises_witness :
  generate_signals_undecorated offline "AAPL" = Ret (sig_error "AAPL").
Proof.
  refine (proj1 (proj2 (proj2 (undecorated_never_raises offline "AAPL")))
            _ _).
  reflexivity.
Defined.

(* ------------------------------------------------------------------ *)
(** ** Share counts given as floats *)

Section Truncation.

Lemma digits2_pos_bound m : (Zpos m < 2 ^ Zpos (digits2_pos m))%Z.
Proof.
  induction m as [p IH|p IH|]; cbn [digits2_pos].
  - rewrite Pos2Z.inj_succ, Z.pow_succ_r by lia. lia.
  - rewrite Pos2Z.inj_succ, Z.pow_succ_r by lia. lia.
  - reflexivity.
Qed.
(** The mantissa of a float has at most 53 bits. *)
Lemma mantissa_bound x s m e :
  Prim2SF x = S754_finite s m e -> (Zpos m < 2 ^ 53)%Z.
Proof.
  intros E. pose proof (Prim2SF_valid x) as V. rewrite E in V.
  unfold SpecFloat.valid_binary, bounded, canonical_mantissa in V.
  apply andb_prop in V as [V _].
  apply Z.eqb_eq in V. unfold fexp in V.
  pose proof (digits2_pos_bound m) as B.
  assert (D : (Zpos (digits2_pos m) <= 53)%Z).
  { change prec with 53%Z in V. unfold Z.sub in V. lia. }
  apply (Z.lt_le_trans _ _ _ B). apply Z.pow_le_mono_r; lia.
Qed.

(** [int(f)] is 0 for every float [f] with [0 <= f < 1]. *)
Lemma int_of_small_float f :
  py_le 0%float f = true -> py_lt f 1%float = true ->
  int_of_float f = Ret 0%Z.
Proof.
  unfold py_le, py_lt, int_of_float. rewrite leb_spec, ltb_spec.
  unfold SFleb, SFltb.
  change (Prim2SF 0%float) with (S754_zero false).
  change (Prim2SF 1%float) with (S754_finite false 4503599627370496 (-52)).
  destruct (Prim2SF f) as [s|s| |s m e] eqn:E; intros H0 H1.
  - reflexivity.
  - destruct s; discriminate.
  - discriminate.
  - destruct s; [discriminate H0|].
    pose proof (mantissa_bound f false m e E) as B.
    cbn [SFcompare] in H1. clear E H0.
    assert (Hsmall : (e < 0 /\ Zpos m < 2 ^ (- e))%Z).
    { destruct (e ?= -52)%Z eqn:C.
      - apply Z.compare_eq in C. subst e. split; [reflexivity|].
        destruct (Pos.compare_cont Eq m 4503599627370496) eqn:Cm;
          try discriminate H1.
        clear H1 B. apply (Pos.compare_lt_iff m 4503599627370496) in Cm.
        change (2 ^ (- -52))%Z with 4503599627370496%Z.
        exact Cm.
      - change (e < -52)%Z in C. clear H1. split; [lia|].
        apply (Z.lt_le_trans _ _ _ B). apply Z.pow_le_mono_r; lia.
      - discriminate H1. }
    clear H1 B. destruct Hsmall as [He Hm].
    replace e with (- (- e))%Z by lia.
    rewrite Z.shiftl_opp_r, Z.shiftr_div_pow2 by lia.
    now rewrite Z.div_small by lia.
Qed.

(** X16. A share count given as a float in [0, 1) is truncated to 0 by
    [int()] and refused with the shares message, whatever the other
    arguments, provided the price coerces to a float. *)
Theorem fractional_shares_rejected w ticker f bp x da s :
  py_le 0%float f = true -> py_lt f 1%float = true ->
  py_float bp = Ret x ->
  add_stock w ticker (PyFloat f) bp da s
  = (Ret false, rejected s (normalize ticker) msg_shares).
Proof.
  intros H0 H1 Hx. apply add_stock_value_error.
  unfold add_stock_body, mbind, lift. cbn [py_int].
  rewrite (int_of_small_float f H0 H1), Hx. reflexivity.
Qed.

Lemma fractional_shares_rejected_witness :
  add_stock offline "tsla" (PyFloat 0.5%float) (PyInt 200) None
            (mkStore seed [])
  = (Ret false, rejected (mkStore seed []) "TSLA" msg_shares).
Proof.
  apply (fractional_shares_rejected offline "tsla" 0.5%float (PyInt 200)
           200%float None (mkStore seed [])); reflexivity.
Defined.

End Truncation.
